(** * LinoSPAD2: cross-talk collection and dark count rate

    A shallow embedding of [src/LinoSPAD2/functions/cross_talk.py]
    ([collect_cross_talk] and [calculate_dark_count_rate]) together with
    the statements that the design document makes about them.

    Conventions of the embedding.
    - A channel array [data_all[tdc]] is a list of rows
      [(pixel field, timestamp field)].  The pixel field holds the
      intra-channel pixel index, [-1] for an invalid record and [-2] for
      the end of an acquisition cycle.
    - Timestamps are calibrated floating point numbers in the program.
      Only their sign, their order and their differences are used below,
      so they are kept as exact integers (picoseconds).
    - Python exceptions are values of [exn]; a computation that can raise
      returns a [result].  Code that touches the file system runs in the
      monad [io], which threads a [world] and keeps the effects that
      happened before an exception was raised. *)

From Stdlib Require Import List ZArith String Bool Arith Lia Sorted.
From Stdlib Require Import QArith_base.
From Stdlib Require Import Permutation.
Import ListNotations.
Close Scope Q_scope.
Local Open Scope string_scope.
Local Open Scope Z_scope.

Set Implicit Arguments.

(** ** Exceptions and the two monads *)

Inductive exn : Type :=
| TypeError
| IndexError
| ZeroDivisionError
| SystemExit.

Inductive result (A : Type) : Type :=
| Ok (a : A)
| Raise (e : exn).

Arguments Ok {A} a.
Arguments Raise {A} e.

Class Monad (M : Type -> Type) : Type := {
  ret : forall {A}, A -> M A;
  bind : forall {A B}, M A -> (A -> M B) -> M B
}.

Declare Scope monad_scope.
Delimit Scope monad_scope with monad.
Notation "x <- c ;; k" := (bind c (fun x => k))
  (at level 61, c at next level, right associativity) : monad_scope.
Notation "' pat <- c ;; k" := (bind c (fun x => match x with pat => k end))
  (at level 61, pat pattern, c at next level, right associativity) : monad_scope.
Notation "c ;; k" := (bind c (fun _ => k))
  (at level 61, right associativity) : monad_scope.
Local Open Scope monad_scope.

Definition result_bind {A B} (c : result A) (k : A -> result B) : result B :=
  match c with
  | Ok a => k a
  | Raise e => Raise e
  end.

#[export] Instance Monad_result : Monad result :=
  {| ret := @Ok; bind := @result_bind |}.

(** ** numpy on lists *)

Module Np.

(** [np.arange(n)] *)
Definition arange (n : nat) : list Z := map Z.of_nat (seq 0 n).

(** [a.reshape(rows, cols)] of a flat array, row major. *)
Fixpoint reshape (rows cols : nat) (a : list Z) : list (list Z) :=
  match rows with
  | O => []
  | S rows' => firstn cols a :: reshape rows' cols (skipn cols a)
  end.

(** [m.T] of a matrix with [cols] columns. *)
Definition transpose (cols : nat) (m : list (list Z)) : list (list Z) :=
  map (fun c => map (fun r => nth c r 0) m) (seq 0 cols).

(** Indices [i >= start] numbered from [start] at which [test] holds. *)
Fixpoint where_from {A} (test : A -> bool) (start : nat) (a : list A) : list nat :=
  match a with
  | [] => []
  | x :: a' =>
      if test x then start :: where_from test (S start) a'
      else where_from test (S start) a'
  end.

(** [np.where(cond)[0]] and, for a vector, [np.argwhere(cond)] flattened. *)
Definition where_ {A} (test : A -> bool) (a : list A) : list nat :=
  where_from test 0 a.

(** [np.argwhere(m == v)] for a matrix: [(row, column)] in row-major order. *)
Fixpoint argwhere_from (v : Z) (r : nat) (m : list (list Z)) : list (nat * nat) :=
  match m with
  | [] => []
  | row :: m' =>
      map (fun c => (r, c)) (where_ (Z.eqb v) row) ++ argwhere_from v (S r) m'
  end.

Definition argwhere (m : list (list Z)) (v : Z) : list (nat * nat) :=
  argwhere_from v 0 m.

(** [a[idx]] with an index array; the indices used below come from
    [where_] on an array of the same length and are always in range. *)
Definition take (a : list Z) (idx : list nat) : list Z :=
  map (fun i => nth i a 0) idx.

(** [a[lo:hi]] for non-negative bounds. *)
Definition slice {A} (a : list A) (lo hi : nat) : list A :=
  firstn (hi - lo) (skipn lo a).

(** [xs[0]] *)
Definition first {A} (xs : list A) : result A :=
  match xs with
  | [] => Raise IndexError
  | x :: _ => Ok x
  end.

(** [xs[i]] for a non-negative [i]. *)
Definition item {A} (xs : list A) (i : nat) : result A :=
  match nth_error xs i with
  | Some x => Ok x
  | None => Raise IndexError
  end.

End Np.

(** ** Data model *)

(** One row of a channel array: pixel field and timestamp field. *)
Definition record : Type := (Z * Z)%type.
Definition channel : Type := list record.
(** What [unpack_binary_data] returns: one channel array per TDC. *)
Definition data_all_t : Type := list channel.

(** [data_all[tdc].T[0]] and [data_all[tdc].T[1]] *)
Definition T0 (ch : channel) : list Z := map fst ch.
Definition T1 (ch : channel) : list Z := map snd ch.

(** Values that can be passed where the signature asks for a [str]:
    Python does not enforce the annotation. *)
Inductive pyval : Type :=
| PyStr (s : string)
| PyInt (z : Z)
| PyNone.

Definition isinstance_str (v : pyval) : bool :=
  match v with
  | PyStr _ => true
  | _ => false
  end.

(** [v == s] for a string literal [s]. *)
Definition py_eq_str (v : pyval) (s : string) : bool :=
  match v with
  | PyStr s' => String.eqb s' s
  | _ => false
  end.

(** ** The pixel coordinate map *)

(** The firmware branch at the head of both file loops. *)
Definition pix_coor_of (firmware_version : pyval) : result (list (list Z)) :=
  if py_eq_str firmware_version "2212s" then
    Ok (Np.transpose 64 (Np.reshape 4 64 (Np.arange 256)))
  else if py_eq_str firmware_version "2212b" then
    Ok (Np.reshape 64 4 (Np.arange 256))
  else Raise SystemExit.

(** [tdc, pix_c = np.argwhere(pix_coor == pixel)[0]] *)
Definition pixel_coordinates (pix_coor : list (list Z)) (pixel : Z)
  : result (nat * nat) :=
  Np.first (Np.argwhere pix_coor pixel).

(** The three lines that fetch the timestamps of one pixel:
    [tdc, pix_c = np.argwhere(pix_coor == pixel)[0]],
    [pix = np.where(data_all[tdc].T[0] == pix_c)[0]],
    [data = data_all[tdc].T[1][pix]].
    The row indices [pix] are returned with the timestamps. *)
Definition pixel_rows (pix_coor : list (list Z)) (data_all : data_all_t)
    (pixel : Z) : result (list nat * list Z) :=
  '(tdc, pix_c) <- pixel_coordinates pix_coor pixel ;;
  ch <- Np.item data_all tdc ;;
  let pix := Np.where_ (Z.eqb (Z.of_nat pix_c)) (T0 ch) in
  ret (pix, Np.take (T1 ch) pix).

Definition pixel_data (pix_coor : list (list Z)) (data_all : data_all_t)
    (pixel : Z) : result (list Z) :=
  '(_, data) <- pixel_rows pix_coor data_all pixel ;;
  ret data.

(** [len(np.where(data > 0)[0])] *)
Definition valid_timestamps (data : list Z) : nat :=
  List.length (Np.where_ (fun t => 0 <? t) data).

(** [pix_coor[tdc][pix_c]] *)
Definition entry (pix_coor : list (list Z)) (tdc_pix : nat * nat) : option Z :=
  match nth_error pix_coor (fst tdc_pix) with
  | Some r => nth_error r (snd tdc_pix)
  | None => None
  end.

(** The pixels 0..255 are mapped one to one onto the grid of
    [channels] times [per_channel] pairs (channel, intra-channel index),
    and no other number is mapped at all. *)
Definition maps_onto_grid (pix_coor : list (list Z)) (channels per_channel : nat)
  : Prop :=
  (forall p, 0 <= p < 256 ->
     exists tdc pix_c, pixel_coordinates pix_coor p = Ok (tdc, pix_c)
                       /\ (tdc < channels)%nat /\ (pix_c < per_channel)%nat)
  /\ (forall p q tdc_pix,
        pixel_coordinates pix_coor p = Ok tdc_pix ->
        pixel_coordinates pix_coor q = Ok tdc_pix -> p = q)
  /\ (forall tdc pix_c, (tdc < channels)%nat -> (pix_c < per_channel)%nat ->
        exists p, 0 <= p < 256 /\ pixel_coordinates pix_coor p = Ok (tdc, pix_c))
  /\ (forall p tdc_pix, pixel_coordinates pix_coor p = Ok tdc_pix -> 0 <= p < 256).

(** ** Cycle boundaries *)

(** [np.insert(np.argwhere(ch.T[0] == -2), 0, 0)] *)
Definition cycle_ends_of (ch : channel) : list nat :=
  0%nat :: Np.where_ (Z.eqb (-2)) (T0 ch).

(** The boundaries of a file are read from [data_all[0]]. *)
Definition file_cycle_ends (data_all : data_all_t) : result (list nat) :=
  ch0 <- Np.item data_all 0 ;;
  ret (cycle_ends_of ch0).

(** ** The file system *)

(** One line of the table that [collect_cross_talk] saves: the columns
    "File", "Pixel 1", "Pixel 2", "Timestamps 1", "Timestamps 2",
    "Deltas" and "CT". *)
Record row : Type := mk_row {
  File : string;
  Pixel_1 : Z;
  Pixel_2 : Z;
  Timestamps_1 : nat;
  Timestamps_2 : nat;
  Deltas : nat;
  CT : Q
}.

(** What the program does to the outside, in the order it happens.
    Console output is left out. *)
Inductive event : Type :=
| Chdir (dir : string)
| Glob (pattern : string)
| Unpack (file : string)
| Makedirs (dir : string)
| ToCsv (name : string)
| ReadMask.

(** The data folder [path], which is assumed to exist: the names that
    [glob.glob("*.dat*")] returns there, in the order it returns them,
    the content of its sub-folder "cross_talk_data" when there is one,
    and the log of what has been done so far. *)
Record world : Type := mk_world {
  dat_files : list string;
  cross_talk_data : option (list (string * list row));
  events : list event
}.

Definition io (A : Type) : Type := world -> result A * world.

Definition io_ret {A} (a : A) : io A := fun w => (Ok a, w).

Definition io_bind {A B} (c : io A) (k : A -> io B) : io B :=
  fun w =>
    match c w with
    | (Ok a, w') => k a w'
    | (Raise e, w') => (Raise e, w')
    end.

#[export] Instance Monad_io : Monad io :=
  {| ret := @io_ret; bind := @io_bind |}.

Definition raise {A} (e : exn) : io A := fun w => (Raise e, w).

(** A computation that does not touch the file system. *)
Definition pure {A} (r : result A) : io A := fun w => (r, w).

(** Reading and changing the world. *)
Definition get : io world := fun w => (Ok w, w).

Definition modify (f : world -> world) : io unit := fun w => (Ok tt, f w).

Definition log (e : event) : io unit :=
  modify (fun w => mk_world (dat_files w) (cross_talk_data w) (events w ++ [e])).

Definition set_cross_talk_data (dir : list (string * list row)) : io unit :=
  modify (fun w => mk_world (dat_files w) (Some dir) (events w)).

(** [os.chdir(path)] *)
Definition chdir (dir : string) : io unit := log (Chdir dir).

(** [glob.glob("*.dat*")] in the data folder. *)
Definition glob_dat : io (list string) :=
  log (Glob "*.dat*") ;;
  w <- get ;;
  ret (dat_files w).

(** Does [s] occur in [name]? *)
Definition occurs_in (s name : string) : bool :=
  match String.index 0 s name with
  | Some _ => true
  | None => false
  end.

(** [try: os.chdir("cross_talk_data")
     except FileNotFoundError: os.makedirs(...); os.chdir(...)] *)
Definition enter_cross_talk_data : io unit :=
  w <- get ;;
  match cross_talk_data w with
  | Some _ => chdir "cross_talk_data"
  | None =>
      log (Makedirs "cross_talk_data") ;;
      set_cross_talk_data [] ;;
      chdir "cross_talk_data"
  end.

(** The content of "cross_talk_data" once the program is inside it. *)
Definition listdir : io (list (string * list row)) :=
  w <- get ;;
  ret (match cross_talk_data w with Some dir => dir | None => [] end).

(** [glob.glob("*" + name + "*")] inside "cross_talk_data". *)
Definition glob_csv (name : string) : io (list string) :=
  log (Glob ("*" ++ name ++ "*")) ;;
  dir <- listdir ;;
  ret (filter (occurs_in name) (map fst dir)).

(** [table.to_csv(name, index=False)]: creates the file or replaces it. *)
Definition to_csv (name : string) (table : list row) : io unit :=
  log (ToCsv name) ;;
  dir <- listdir ;;
  set_cross_talk_data
    ((name, table) :: filter (fun f => negb (String.eqb (fst f) name)) dir).

(** [files[-1]] *)
Definition last_item (files : list string) : result string :=
  match files with
  | [] => Raise IndexError
  | f :: fs => Ok (List.last fs f)
  end.

(** [int / int]: true division. *)
Definition truediv (a b : nat) : result Q :=
  match b with
  | O => Raise ZeroDivisionError
  | S _ => Ok (Qmake (Z.of_nat a) (Pos.of_nat b))
  end.

(** ** The two programs *)

Section CrossTalk.

(** [LinoSPAD2.functions.unpack.unpack_binary_data(file,
    daughterboard_number, motherboard_number, firmware_version,
    timestamps, include_offset, apply_calibration)]: the parser of a
    data file, which lives in another module.  The last argument is
    [None] where the caller leaves it at its default. *)
Variable unpack_binary_data :
  string -> pyval -> pyval -> pyval -> Z -> bool -> option bool -> data_all_t.

(** [LinoSPAD2.functions.calc_diff.calculate_differences_2212(data1,
    data2, cycle_ends, delta_window)], from another module as well. *)
Variable calculate_differences_2212 :
  list Z -> list Z -> list nat -> Z -> list Z.

(** [LinoSPAD2.functions.utils.apply_mask(daughterboard_number,
    motherboard_number)]: the indices of the masked pixels. *)
Variable apply_mask : pyval -> pyval -> list nat.

(** Reading a data file is the one place where a file is opened. *)
Definition unpack (file : string) (db mb fw : pyval) (timestamps : Z)
    (include_offset : bool) (apply_calibration : option bool)
  : io data_all_t :=
  log (Unpack file) ;;
  ret (unpack_binary_data file db mb fw timestamps include_offset
         apply_calibration).

Section OneFile.

Variable file : string.
Variable pix_coor : list (list Z).
Variable data_all : data_all_t.
Variable delta_window : Z.

(** The body of [for j in range(1, len(pixels))], over the pixels
    that follow [pixels[0]]. *)
Fixpoint pairs_loop (pixel0 : Z) (data1 : list Z) (cycle_ends : list nat)
    (others : list Z) : result (list row) :=
  match others with
  | [] => ret []
  | pixel_j :: others' =>
      if pixel_j <=? pixel0 then
        pairs_loop pixel0 data1 cycle_ends others'
      else
        data2 <- pixel_data pix_coor data_all pixel_j ;;
        let deltas :=
          calculate_differences_2212 data1 data2 cycle_ends delta_window in
        let timestamps_pix1 := valid_timestamps data1 in
        if Nat.eqb timestamps_pix1 0 then
          pairs_loop pixel0 data1 cycle_ends others'
        else
          let timestamps_pix2 := valid_timestamps data2 in
          ct <- truediv (List.length deltas * 100)
                  (timestamps_pix1 + timestamps_pix2) ;;
          rows <- pairs_loop pixel0 data1 cycle_ends others' ;;
          ret (mk_row file pixel0 pixel_j timestamps_pix1 timestamps_pix2
                 (List.length deltas) ct :: rows)
  end.

(** What one file adds to the table. *)
Definition file_rows (pixels : list Z) : result (list row) :=
  pixel0 <- Np.first pixels ;;
  data1 <- pixel_data pix_coor data_all pixel0 ;;
  cycle_ends <- file_cycle_ends data_all ;;
  pairs_loop pixel0 data1 cycle_ends (tl pixels).

End OneFile.

Section Run.

Variable path : string.
Variable pixels : list Z.
Variables daughterboard_number motherboard_number firmware_version : pyval.
Variable timestamps : Z.
Variable delta_window : Z.
Variable include_offset apply_calibration : bool.

(** [for i, file in enumerate(tqdm(files))] *)
Fixpoint files_loop (files : list string) : io (list row) :=
  match files with
  | [] => ret []
  | file :: files' =>
      pix_coor <- pure (pix_coor_of firmware_version) ;;
      data_all <- unpack file daughterboard_number motherboard_number
                    firmware_version timestamps include_offset
                    (Some apply_calibration) ;;
      rows <- pure (file_rows file pix_coor data_all delta_window pixels) ;;
      rest <- files_loop files' ;;
      ret (rows ++ rest)%list
  end.

(** ["CT_data_{}-{}.csv".format(files[0], files[-1])] *)
Definition csv_name (first_file last_file : string) : string :=
  "CT_data_" ++ first_file ++ "-" ++ last_file ++ ".csv".

Definition collect_cross_talk : io unit :=
  if negb (isinstance_str daughterboard_number) then raise TypeError
  else if negb (isinstance_str motherboard_number) then raise TypeError
  else
    chdir path ;;
    files <- glob_dat ;;
    cross_talk_data <- files_loop files ;;
    first_file <- pure (Np.first files) ;;
    last_file <- pure (last_item files) ;;
    enter_cross_talk_data ;;
    found <- glob_csv (csv_name first_file last_file) ;;
    match found with
    | [] => to_csv (csv_name first_file last_file) cross_talk_data
    | _ :: _ => to_csv (csv_name first_file last_file) cross_talk_data
    end.

End Run.

Section DarkCountRate.

Variable path : string.
Variables daughterboard_number motherboard_number firmware_version : pyval.
Variable timestamps : Z.

(** The body of [for i in range(256)]: the number of valid
    timestamps of each pixel in one file. *)
Fixpoint count_valid (pix_coor : list (list Z)) (data : data_all_t)
    (pixels : list Z) : result (list nat) :=
  match pixels with
  | [] => ret []
  | i :: pixels' =>
      timestamps_i <- pixel_data pix_coor data i ;;
      counts <- count_valid pix_coor data pixels' ;;
      ret (valid_timestamps timestamps_i :: counts)
  end.

(** [valid_per_pixel[i] += ...] for all [i] at once. *)
Definition add_counts (valid_per_pixel counts : list nat) : list nat :=
  map (fun vc => (fst vc + snd vc)%nat) (combine valid_per_pixel counts).

(** [for i in tqdm(range(len(files)))] *)
Fixpoint dcr_loop (files : list string) (valid_per_pixel : list nat)
  : io (list nat) :=
  match files with
  | [] => ret valid_per_pixel
  | file :: files' =>
      pix_coor <- pure (pix_coor_of firmware_version) ;;
      data <- unpack file daughterboard_number motherboard_number
                firmware_version timestamps false None ;;
      counts <- pure (count_valid pix_coor data (Np.arange 256)) ;;
      dcr_loop files' (add_counts valid_per_pixel counts)
  end.

(** [valid_per_pixel[mask] = 0]: the entries at the indices of the mask
    become zero.  The mask holds pixel numbers, which are not negative;
    a number that is not below the length of the array raises
    [IndexError]. *)
Definition clear_masked (mask : list nat) (valid_per_pixel : list nat)
  : result (list nat) :=
  if forallb (fun i => (i <? List.length valid_per_pixel)%nat) mask then
    Ok (map (fun iv => if existsb (Nat.eqb (fst iv)) mask then 0%nat
                       else snd iv)
          (combine (seq 0 (List.length valid_per_pixel)) valid_per_pixel))
  else Raise IndexError.

(** [np.average(valid_per_pixel) / len(files)].  With no file the
    counts are all zero and numpy yields [nan] for [0.0 / 0]. *)
Inductive dcr_t : Type :=
| Dcr (q : Q)
| NaN.

Definition average_per_file (valid_per_pixel : list nat) (n_files : nat)
  : dcr_t :=
  match n_files with
  | O => NaN
  | S _ =>
      Dcr (Qmake (Z.of_nat (list_sum valid_per_pixel))
             (Pos.of_nat (List.length valid_per_pixel * n_files)))
  end.

Definition calculate_dark_count_rate : io dcr_t :=
  if negb (isinstance_str firmware_version) then raise TypeError
  else if negb (isinstance_str daughterboard_number) then raise TypeError
  else if negb (isinstance_str motherboard_number) then raise TypeError
  else
    chdir path ;;
    files <- glob_dat ;;
    valid_per_pixel <- dcr_loop files (repeat 0%nat 256) ;;
    log ReadMask ;;
    let mask := apply_mask daughterboard_number motherboard_number in
    valid_per_pixel <- pure (clear_masked mask valid_per_pixel) ;;
    ret (average_per_file valid_per_pixel (List.length files)).

End DarkCountRate.

End CrossTalk.

(** ** The difference engine *)

Module DifferenceEngine.

Section Pairs.

(** The elements of a series and the timestamp each one carries.  For
    the program the elements are the timestamps themselves; for the
    statements about where a difference comes from they are rows that
    remember their offset in the channel array. *)
Variable X : Type.
Variable stamp : X -> Z.

Definition in_window (window : Z) (a b : X) : bool :=
  Z.abs (stamp b - stamp a) <=? window.

(** All pairs of one cycle whose difference lies inside the window. *)
Definition cycle_pairs (slice_a slice_b : list X) (window : Z) : list (X * X) :=
  flat_map (fun a => map (pair a) (filter (in_window window a) slice_b)) slice_a.

(** Cycle [c] is the index range from [boundaries[c]] up to
    [boundaries[c + 1]]. *)
Fixpoint window_pairs (series_a series_b : list X) (boundaries : list nat)
    (window : Z) : list (X * X) :=
  match boundaries with
  | [] => []
  | lo :: rest =>
      match rest with
      | [] => []
      | hi :: _ =>
          (cycle_pairs (Np.slice series_a lo hi) (Np.slice series_b lo hi) window
           ++ window_pairs series_a series_b rest window)%list
      end
  end.

End Pairs.

(** Modelled from the spec: [calc_diff.calculate_differences_2212], whose
    module is not among the sources.  The design document, section 4.5:
    for each cycle, restrict both series to that cycle's index range,
    then compute every timestamp difference [b - a] for [a] in series
    a's cycle slice and [b] in series b's cycle slice whose absolute
    value is at most the window; the qualifying differences of all
    cycles are concatenated into one sequence. *)
Definition calculate_differences_2212 (data1 data2 : list Z)
    (cycle_ends : list nat) (delta_window : Z) : list Z :=
  map (fun ab => snd ab - fst ab)
    (window_pairs (fun t => t) data1 data2 cycle_ends delta_window).

(** The same computation on rows that carry their offset in the channel
    array next to the timestamp. *)
Definition traced_pairs (rows1 rows2 : list (nat * Z)) (cycle_ends : list nat)
    (delta_window : Z) : list ((nat * Z) * (nat * Z)) :=
  window_pairs snd rows1 rows2 cycle_ends delta_window.

End DifferenceEngine.

(** The cycle a row offset of a channel array belongs to: cycle [c] holds
    the offsets from [cycle_ends[c]] up to [cycle_ends[c + 1]]. *)
Fixpoint cycle_from (c : nat) (cycle_ends : list nat) (offset : nat) : option nat :=
  match cycle_ends with
  | [] => None
  | lo :: rest =>
      match rest with
      | [] => None
      | hi :: _ =>
          if (lo <=? offset)%nat && (offset <? hi)%nat then Some c
          else cycle_from (S c) rest offset
      end
  end.

Definition cycle_of (cycle_ends : list nat) (offset : nat) : option nat :=
  cycle_from 0 cycle_ends offset.

(** The series of one pixel as [collect_cross_talk] builds it, each
    timestamp with the offset of its row in the channel array. *)
Definition pixel_series (pix_coor : list (list Z)) (data_all : data_all_t)
    (pixel : Z) : result (list (nat * Z)) :=
  '(pix, data) <- pixel_rows pix_coor data_all pixel ;;
  ret (combine pix data).

(** Do the two records of a pair lie in the same cycle? *)
Definition same_cycle (cycle_ends : list nat) (p : (nat * Z) * (nat * Z)) : bool :=
  match cycle_of cycle_ends (fst (fst p)), cycle_of cycle_ends (fst (snd p)) with
  | Some c1, Some c2 => Nat.eqb c1 c2
  | _, _ => false
  end.

(** ** Observations on a run *)

(** The world after some more events. *)
Definition after (evs : list event) (w : world) : world :=
  mk_world (dat_files w) (cross_talk_data w) (events w ++ evs).

(** The three facts about a coordinate array that are checked by
    running it: every pixel below 256 lands on the grid, every grid cell
    is the image of the pixel it holds, and the array holds nothing but
    the pixels below 256. *)
Definition grid_check (pix_coor : list (list Z)) (channels per_channel : nat) : bool :=
  forallb (fun n =>
             match pixel_coordinates pix_coor (Z.of_nat n) with
             | Ok (tdc, pix_c) => (tdc <? channels)%nat && (pix_c <? per_channel)%nat
             | Raise _ => false
             end) (seq 0 256)
  && forallb (fun tdc =>
                forallb (fun pix_c =>
                           match entry pix_coor (tdc, pix_c) with
                           | Some p =>
                               (0 <=? p) && (p <? 256) &&
                               match pixel_coordinates pix_coor p with
                               | Ok (tdc', pix_c') =>
                                   Nat.eqb tdc' tdc && Nat.eqb pix_c' pix_c
                               | Raise _ => false
                               end
                           | None => false
                           end) (seq 0 per_channel)) (seq 0 channels)
  && forallb (forallb (fun p => (0 <=? p) && (p <? 256))) pix_coor.

(** [f] on both members of a pair. *)
Definition map_pair {X Y} (f : X -> Y) (p : X * X) : Y * Y :=
  (f (fst p), f (snd p)).


Definition is_unpack (e : event) : bool :=
  match e with
  | Unpack _ => true
  | _ => false
  end.

(** How often the unpack step has been invoked. *)
Definition unpack_calls (w : world) : nat :=
  List.length (filter is_unpack (events w)).

(** Is there a saved table whose name contains [name]? *)
Definition has_artifact (name : string) (w : world) : bool :=
  match cross_talk_data w with
  | Some dir => existsb (occurs_in name) (map fst dir)
  | None => false
  end.

(** The saved table called [name]. *)
Definition artifact (name : string) (w : world) : option (list row) :=
  match cross_talk_data w with
  | Some dir =>
      match find (fun f => String.eqb (fst f) name) dir with
      | Some f => Some (snd f)
      | None => None
      end
  | None => None
  end.

(** A run reuses what is there: it does not invoke the unpack step. *)
Definition no_recomputation {A} (run : io A) (w : world) : Prop :=
  unpack_calls (snd (run w)) = unpack_calls w.

(** A run stops with a configuration error and has not touched the file
    system: no event is logged and the world is as it was. *)
Definition fatal_before_io {A} (run : io A) (w : world) : Prop :=
  (fst (run w) = Raise SystemExit \/ fst (run w) = Raise TypeError)
  /\ snd (run w) = w.

(** For two pixels of one file: every difference that is returned pairs
    records whose rows lie in the same cycle. *)
Definition no_cross_cycle_pair (pix_coor : list (list Z)) (data_all : data_all_t)
    (pixel_a pixel_b : Z) (delta_window : Z) : Prop :=
  forall rows1 rows2 cycle_ends,
    pixel_series pix_coor data_all pixel_a = Ok rows1 ->
    pixel_series pix_coor data_all pixel_b = Ok rows2 ->
    file_cycle_ends data_all = Ok cycle_ends ->
    forallb (same_cycle cycle_ends)
      (DifferenceEngine.traced_pairs rows1 rows2 cycle_ends delta_window)
    = true.

(** ** Sample data *)

Module Sample.

(** The files of the samples were taken with two timestamps per cycle
    and hold two cycles: two rows and the end-of-cycle row, twice. *)

(** A channel without events. *)
Definition idle : channel :=
  [(-1, -1); (-1, -1); (-2, -2); (-1, -1); (-1, -1); (-2, -2)].

(** Under "2212b" the pixels 0 and 1 are the intra-channel pixels 0 and 1
    of channel 0.  Here pixel 1 fires in the first cycle and pixel 0 in
    the second. *)
Definition two_cycles : data_all_t :=
  [(1, 100); (-1, -1); (-2, -2); (0, 150); (-1, -1); (-2, -2)]
  :: repeat idle 63.

(** Pixel 0 never fires. *)
Definition silent : data_all_t :=
  [(1, 100); (-1, -1); (-2, -2); (1, 150); (-1, -1); (-2, -2)]
  :: repeat idle 63.

(** Both pixels fire in the first cycle. *)
Definition coincident : data_all_t :=
  [(0, 100); (1, 150); (-2, -2); (-1, -1); (-1, -1); (-2, -2)]
  :: repeat idle 63.

(** A parser that knows three files. *)
Definition unpack_binary_data (file : string) (_ _ _ : pyval) (_ : Z)
    (_ : bool) (_ : option bool) : data_all_t :=
  if String.eqb file "silent.dat" then silent
  else if String.eqb file "two_cycles.dat" then two_cycles
  else coincident.

Definition apply_mask (_ _ : pyval) : list nat := [3%nat; 200%nat].

Definition world_of (files : list string) : world := mk_world files None [].

Definition b2212 : list (list Z) := Np.reshape 64 4 (Np.arange 256).

(** A run of [collect_cross_talk] on the pixels 0 and 1 with the given
    firmware tag, and one of [calculate_dark_count_rate]. *)
Definition run (firmware_version : string) : io unit :=
  collect_cross_talk unpack_binary_data
    DifferenceEngine.calculate_differences_2212 "data" [0; 1]
    (PyStr "NL11") (PyStr "#33") (PyStr firmware_version) 2 10000 true true.

Definition run_dcr (firmware_version : string) : io dcr_t :=
  calculate_dark_count_rate unpack_binary_data apply_mask "data"
    (PyStr "NL11") (PyStr "#33") (PyStr firmware_version) 2.

(** The folder with one data file after a first run: the table is there. *)
Definition after_first_run : world :=
  snd (run "2212b" (world_of ["a.dat"])).

End Sample.

(** ** Counting the valid records of a file *)

(** The rows of a channel array that belong to the intra-channel pixel
    [pix_c] and carry a valid timestamp. *)
Definition count_in (ch : channel) (pix_c : Z) : nat :=
  List.length (filter (fun r => (pix_c =? fst r) && (0 <? snd r)) ch).

Definition count_at (data : data_all_t) (tdc_pix : nat * nat) : nat :=
  match nth_error data (fst tdc_pix) with
  | Some ch => count_in ch (Z.of_nat (snd tdc_pix))
  | None => 0%nat
  end.

(** The coordinates of a pixel, for the pixels that have some. *)
Definition coordinates (pix_coor : list (list Z)) (pixel : Z) : nat * nat :=
  match pixel_coordinates pix_coor pixel with
  | Ok tdc_pix => tdc_pix
  | Raise _ => (0%nat, 0%nat)
  end.

(** The rows of a channel array that carry a valid timestamp of one of
    its four pixels, and their number in a whole file. *)
Definition valid_rows (ch : channel) : nat :=
  List.length
    (filter (fun r => (0 <=? fst r) && (fst r <? 4) && (0 <? snd r)) ch).

Definition valid_records (data : data_all_t) : nat :=
  list_sum (map valid_rows data).

(** ** Plotting the cross-talk against the distance *)

Module Plot.

(** [series.unique()]: the values in the order of their first
    appearance. *)
Fixpoint unique_from (seen : list Z) (values : list Z) : list Z :=
  match values with
  | [] => []
  | v :: values' =>
      if existsb (Z.eqb v) seen then unique_from seen values'
      else v :: unique_from (v :: seen) values'
  end.

Definition unique (values : list Z) : list Z := unique_from [] values.

(** [np.sort] *)
Fixpoint insert (x : Z) (sorted : list Z) : list Z :=
  match sorted with
  | [] => [x]
  | y :: sorted' => if x <=? y then x :: sorted else y :: insert x sorted'
  end.

Fixpoint sort (values : list Z) : list Z :=
  match values with
  | [] => []
  | x :: values' => insert x (sort values')
  end.

(** [np.average] of a non-empty array, without rounding. *)
Definition average (values : list Q) : Q :=
  Qdiv (fold_right Qplus (Qmake 0 1) values)
    (Qmake (Z.of_nat (List.length values)) 1).

(** What [ct.append] receives: an average, or the array [ct_pix] itself
    when it holds a single value. *)
Inductive ct_entry : Type :=
| Averaged (mean : Q)
| Values (ct_pix : list Q).

Definition is_averaged (e : ct_entry) : bool :=
  match e with
  | Averaged _ => true
  | Values _ => false
  end.

(** An entry that is not an average holds exactly one value. *)
Definition single_value (e : ct_entry) : Prop :=
  match e with
  | Values v => List.length v = 1%nat
  | Averaged _ => True
  end.

(** The variables of [plot_cross_talk] that the loop over the second
    pixels fills; [xticks] is unbound until the loop assigns it. *)
Record plot_state : Type := mk_plot_state {
  distance : list Z;
  ct : list ct_entry;
  yerr : list Q;
  xticks : option (list Z)
}.

Section Loop.

(** [scipy.stats.sem] and [np.linspace(first, last, num, dtype=int)]. *)
Variable sem : list Q -> Q.
Variable linspace_int : Z -> Z -> nat -> list Z.

Variable data : list row.
Variable pix1 : Z.

(** [data.loc[data["Pixel 1"] == pix1]] *)
Definition data_cut : list row :=
  filter (fun r => Pixel_1 r =? pix1) data.

(** [np.sort(np.delete(pix2, np.where(pix2 <= pix1)[0]))] of the unique
    second pixels of the whole table. *)
Definition pix2 : list Z :=
  sort (filter (fun p => negb (p <=? pix1)) (unique (map Pixel_2 data))).

(** [data_cut[data_cut["Pixel 2"] == pix].CT.values] *)
Definition ct_pix (pix : Z) : list Q :=
  map CT (filter (fun r => Pixel_2 r =? pix) data_cut).

(** Does the pixel have a row in the cut of the table? *)
Definition has_rows (pix : Z) : bool :=
  match ct_pix pix with
  | [] => false
  | _ :: _ => true
  end.

(** One pass of [for i, pix in enumerate(pix2)]. *)
Definition step (st : plot_state) (pix : Z) : plot_state :=
  match ct_pix pix with
  | [] => st
  | _ :: _ =>
      let distance' := (distance st ++ [pix - pix1])%list in
      let ticks :=
        linspace_int (hd 0 distance') (List.last distance' 0)
          (List.length distance' / 10) in
      if (1 <? List.length (ct_pix pix))%nat then
        mk_plot_state distance'
          (ct st ++ [Averaged (average (ct_pix pix))])%list
          (yerr st ++ [sem (ct_pix pix)])%list
          (Some ticks)
      else
        mk_plot_state distance' (ct st ++ [Values (ct_pix pix)])%list
          (yerr st) (Some ticks)
  end.

Definition plot_loop : plot_state :=
  fold_left step pix2 (mk_plot_state [] [] [] None).

End Loop.

End Plot.

(** ** Extending the background spread *)

Module Spread.



Section Extend.

(** The array that [np.arange(start, stop, step)] builds for a step that
    is not zero.  Which elements it has, and how many, depends on the
    integer type of the array, whose arithmetic wraps around; it is left
    open here. *)
Variable np_arange : Z -> Z -> Z -> list Z.

(** [np.arange(start, stop, step)]; numpy refuses a step of zero. *)
Definition arange (start stop step : Z) : option (list Z) :=
  if step =? 0 then None else Some (np_arange start stop step).


End Extend.

End Spread.

(** ** The counts behind the dark count rate *)

(** The valid timestamps of one pixel in all the files. *)
Definition valid_of_pixel (pix_coor : list (list Z))
    (unpacked : string -> data_all_t) (files : list string) (pixel : nat)
  : nat :=
  list_sum
    (map (fun file =>
            count_at (unpacked file) (coordinates pix_coor (Z.of_nat pixel)))
       files).

(** The same, summed over the pixels that are not masked. *)
Definition unmasked_total (pix_coor : list (list Z))
    (unpacked : string -> data_all_t) (files : list string) (mask : list nat)
  : nat :=
  list_sum
    (map (fun pixel =>
            if existsb (Nat.eqb pixel) mask then 0%nat
            else valid_of_pixel pix_coor unpacked files pixel)
       (seq 0 256)).

(** ** A file whose channels end their cycles at different rows *)

Module Shifted.

(** Channel 0 ends its first cycle after one row, channel 1 after two.
    Under "2212b" the pixels 4 and 5 are the intra-channel pixels 0 and 1
    of channel 1; both fire once in each cycle of their channel. *)
Definition data : data_all_t :=
  [(-1, -1); (-2, -2); (-1, -1); (-1, -1); (-1, -1); (-2, -2)]
  :: [(0, 100); (1, 150); (-2, -2); (0, 200); (1, 260); (-2, -2)]
  :: repeat Sample.idle 62.

End Shifted.

(** * Properties *)

(** ** Index arrays *)

Lemma where_from_In A (test : A -> bool) (a : list A) (start i : nat) :
  In i (Np.where_from test start a) <->
  (start <= i)%nat /\ exists x, nth_error a (i - start) = Some x /\ test x = true.
Proof.
  revert start. induction a as [|y a IH]; intros start; simpl.
  - split; [tauto|]. intros [_ [x [H _]]].
    destruct (i - start)%nat; discriminate.
  - assert (Hrest : In i (Np.where_from test (S start) a) <->
              (start < i)%nat /\
              exists x, nth_error a (i - S start) = Some x /\ test x = true).
    { rewrite IH. split; intros [H1 H2]; (split; [lia|exact H2]). }
    assert (Hhead : forall x, nth_error (y :: a) (start - start) = Some x -> x = y).
    { intros x. rewrite Nat.sub_diag. simpl. congruence. }
    assert (Htail : (start < i)%nat ->
              nth_error (y :: a) (i - start) = nth_error a (i - S start)).
    { intros Hlt. replace (i - start)%nat with (S (i - S start)) by lia.
      reflexivity. }
    destruct (test y) eqn:Hy.
    + simpl. rewrite Hrest. split.
      * intros [<- | [Hlt [x Hx]]].
        -- split; [lia|]. exists y. rewrite Nat.sub_diag. auto.
        -- split; [lia|]. exists x. rewrite Htail; auto.
      * intros [Hle [x [Hx Ht]]].
        destruct (Nat.eq_dec start i) as [->|Hne]; [now left|right].
        split; [lia|]. exists x. rewrite <- Htail by lia. auto.
    + rewrite Hrest. split.
      * intros [Hlt [x Hx]]. split; [lia|]. exists x. rewrite Htail; auto.
      * intros [Hle [x [Hx Ht]]].
        destruct (Nat.eq_dec start i) as [->|Hne].
        -- apply Hhead in Hx. congruence.
        -- split; [lia|]. exists x. rewrite <- Htail by lia. auto.
Qed.

Lemma where_In A (test : A -> bool) (a : list A) (i : nat) :
  In i (Np.where_ test a) <-> exists x, nth_error a i = Some x /\ test x = true.
Proof.
  unfold Np.where_. rewrite where_from_In, Nat.sub_0_r.
  split; [tauto|]. intros H. split; [lia|exact H].
Qed.

Lemma where_from_sorted A (test : A -> bool) (a : list A) (start : nat) :
  StronglySorted lt (Np.where_from test start a).
Proof.
  revert start. induction a as [|y a IH]; intros start; simpl.
  - constructor.
  - destruct (test y); [|apply IH].
    constructor; [apply IH|].
    apply Forall_forall. intros i Hi. apply where_from_In in Hi. lia.
Qed.

Lemma where_from_bound A (test : A -> bool) (a : list A) (start : nat) :
  Forall (fun i => (start <= i < start + List.length a)%nat)
    (Np.where_from test start a).
Proof.
  apply Forall_forall. intros i Hi. apply where_from_In in Hi.
  destruct Hi as [Hle [x [Hx _]]].
  assert (i - start < List.length a)%nat
    by (apply nth_error_Some; congruence).
  lia.
Qed.

Lemma StronglySorted_lt_le (l : list nat) :
  StronglySorted lt l -> StronglySorted le l.
Proof.
  induction 1 as [|x l Hs IH Hall]; constructor; auto.
  eapply Forall_impl; [|exact Hall]. intros; lia.
Qed.

(** ** Cycle boundaries *)

(** C7.  The boundary sequence of a channel array is the offset 0
    followed by the row indices that hold the end-of-cycle mark, in
    increasing order: the marks strictly increase, and with the leading 0
    the sequence never decreases.  It increases strictly throughout
    unless the very first row is itself an end-of-cycle mark. *)
Theorem cycle_ends_start_at_zero_and_increase (ch : channel) :
  exists marks,
    cycle_ends_of ch = 0%nat :: marks
    /\ (forall i, In i marks <-> exists t, nth_error ch i = Some (-2, t))
    /\ StronglySorted lt marks
    /\ StronglySorted le (0%nat :: marks)
    /\ ((forall t, nth_error ch 0 <> Some (-2, t)) ->
        StronglySorted lt (0%nat :: marks)).
Proof.
  assert (Hmarks : forall i,
            In i (Np.where_ (Z.eqb (-2)) (T0 ch))
            <-> exists t, nth_error ch i = Some (-2, t)).
  { intros i. rewrite where_In. unfold T0, channel, record in *. split.
    - intros [x [Hx Ht]]. rewrite nth_error_map in Hx.
      destruct (nth_error ch i) as [[p t]|] eqn:Hi; simpl in Hx; [|discriminate Hx].
      injection Hx as <-. apply Z.eqb_eq in Ht. subst p.
      now exists t.
    - intros [t Ht]. exists (-2). rewrite nth_error_map, Ht. auto. }
  exists (Np.where_ (Z.eqb (-2)) (T0 ch)).
  split; [reflexivity|]. split; [exact Hmarks|]. split; [|split].
  - apply where_from_sorted.
  - constructor.
    + apply StronglySorted_lt_le, where_from_sorted.
    + apply Forall_forall. intros; lia.
  - intros Hfirst. constructor; [apply where_from_sorted|].
    apply Forall_forall. intros i Hi.
    destruct i as [|i]; [|lia].
    apply Hmarks in Hi. destruct Hi as [t Ht]. now apply Hfirst in Ht.
Qed.

(** ** The pixel coordinate map *)

Lemma argwhere_from_entry (v : Z) (m : list (list Z)) (r tdc pix_c : nat) :
  In (tdc, pix_c) (Np.argwhere_from v r m) ->
  (r <= tdc)%nat /\
  exists line, nth_error m (tdc - r) = Some line /\ nth_error line pix_c = Some v.
Proof.
  revert r. induction m as [|line m IH]; intros r; simpl; [tauto|].
  rewrite in_app_iff, in_map_iff. intros [[c [Hc Hin]] | Hin].
  - injection Hc as <- <-. split; [lia|]. exists line.
    rewrite Nat.sub_diag. split; [reflexivity|].
    apply where_In in Hin. destruct Hin as [x [Hx Hv]].
    apply Z.eqb_eq in Hv. congruence.
  - apply IH in Hin. destruct Hin as [Hle [line' [H1 H2]]].
    split; [lia|]. exists line'. split; [|exact H2].
    replace (tdc - r)%nat with (S (tdc - S r)) by lia. exact H1.
Qed.

Lemma pixel_coordinates_entry (pix_coor : list (list Z)) (p : Z) (tdc_pix : nat * nat) :
  pixel_coordinates pix_coor p = Ok tdc_pix -> entry pix_coor tdc_pix = Some p.
Proof.
  unfold pixel_coordinates, Np.first, Np.argwhere.
  destruct (Np.argwhere_from p 0 pix_coor) as [|[tdc pix_c] rest] eqn:Harg;
    [discriminate 1|].
  intros H. injection H as <-.
  assert (Hin : In (tdc, pix_c) (Np.argwhere_from p 0 pix_coor))
    by (rewrite Harg; now left).
  apply argwhere_from_entry in Hin. destruct Hin as [_ [line [H1 H2]]].
  unfold entry. simpl. rewrite Nat.sub_0_r in H1. now rewrite H1.
Qed.

Lemma entry_In (pix_coor : list (list Z)) (tdc_pix : nat * nat) (p : Z) :
  entry pix_coor tdc_pix = Some p -> exists line, In line pix_coor /\ In p line.
Proof.
  unfold entry. destruct (nth_error pix_coor (fst tdc_pix)) as [line|] eqn:H1;
    [|discriminate 1].
  intros H2. exists line. split; eapply nth_error_In; eassumption.
Qed.

Lemma grid_check_sound (pix_coor : list (list Z)) (channels per_channel : nat) :
  grid_check pix_coor channels per_channel = true ->
  maps_onto_grid pix_coor channels per_channel.
Proof.
  unfold grid_check. rewrite !andb_true_iff, !forallb_forall.
  intros [[Hfwd Hback] Hrange]. repeat split.
  - intros p Hp. specialize (Hfwd (Z.to_nat p)).
    rewrite Z2Nat.id in Hfwd by lia.
    assert (Hin : In (Z.to_nat p) (seq 0 256)) by (apply in_seq; lia).
    apply Hfwd in Hin.
    destruct (pixel_coordinates pix_coor p) as [[tdc pix_c]|]; [|discriminate Hin].
    apply andb_true_iff in Hin. destruct Hin as [H1 H2].
    apply Nat.ltb_lt in H1, H2. now exists tdc, pix_c.
  - intros p q tdc_pix Hp Hq.
    apply pixel_coordinates_entry in Hp, Hq. congruence.
  - intros tdc pix_c Htdc Hpix.
    assert (H1 : In tdc (seq 0 channels)) by (apply in_seq; lia).
    assert (H2 : In pix_c (seq 0 per_channel)) by (apply in_seq; lia).
    specialize (Hback tdc H1). rewrite forallb_forall in Hback.
    specialize (Hback pix_c H2).
    destruct (entry pix_coor (tdc, pix_c)) as [p|]; [|discriminate Hback].
    exists p. rewrite !andb_true_iff in Hback.
    destruct Hback as [[Hlo Hhi] Hc].
    destruct (pixel_coordinates pix_coor p) as [[tdc' pix_c']|]; [|discriminate Hc].
    apply andb_true_iff in Hc. destruct Hc as [E1 E2].
    apply Nat.eqb_eq in E1, E2. subst. split; [lia|reflexivity].
  - apply pixel_coordinates_entry, entry_In in H.
    destruct H as [line [Hl Hp]].
    specialize (Hrange line Hl). rewrite forallb_forall in Hrange.
    apply Hrange in Hp. lia.
  - apply pixel_coordinates_entry, entry_In in H.
    destruct H as [line [Hl Hp]].
    specialize (Hrange line Hl). rewrite forallb_forall in Hrange.
    apply Hrange in Hp. lia.
Qed.

(** C6, as the program has it.  For each of the two firmware tags the
    map from the pixels 0..255 to (channel, intra-channel index) is a
    bijection onto the grid of 64 channels with 4 pixels each; the two
    tags give different maps (pixel 1 is the second pixel of channel 0
    under "2212b" and the first pixel of channel 1 under "2212s"), and
    under both exactly the 256 pixels are mapped. *)
Theorem pixel_map_is_a_bijection_onto_64_by_4 :
  exists s b,
    pix_coor_of (PyStr "2212s") = Ok s
    /\ pix_coor_of (PyStr "2212b") = Ok b
    /\ maps_onto_grid s 64 4
    /\ maps_onto_grid b 64 4
    /\ pixel_coordinates b 1 = Ok (0%nat, 1%nat)
    /\ pixel_coordinates s 1 = Ok (1%nat, 0%nat).
Proof.
  eexists. eexists.
  split; [reflexivity|]. split; [reflexivity|].
  split; [apply grid_check_sound; vm_compute; reflexivity|].
  split; [apply grid_check_sound; vm_compute; reflexivity|].
  split; vm_compute; reflexivity.
Qed.

(** C6 as it is worded fails: the grid is not 4 channels of 64 pixels.
    Pixel 255 lies in channel 63 under "2212b". *)
Lemma pixel_map_is_not_onto_4_by_64 :
  exists b,
    pix_coor_of (PyStr "2212b") = Ok b
    /\ pixel_coordinates b 255 = Ok (63%nat, 3%nat)
    /\ ~ maps_onto_grid b 4 64.
Proof.
  eexists. split; [reflexivity|]. split; [vm_compute; reflexivity|].
  intros [Hfwd _]. destruct (Hfwd 255) as [tdc [pix_c [Hc [Htdc _]]]]; [lia|].
  vm_compute in Hc. injection Hc as <- <-. lia.
Qed.

(** ** Validation of the configuration *)

Section Configuration.

Variable unpack_binary_data :
  string -> pyval -> pyval -> pyval -> Z -> bool -> option bool -> data_all_t.
Variable calculate_differences_2212 :
  list Z -> list Z -> list nat -> Z -> list Z.
Variable apply_mask : pyval -> pyval -> list nat.

Variable path : string.
Variable pixels : list Z.
Variable timestamps : Z.
Variable delta_window : Z.
Variable include_offset apply_calibration : bool.

Abbreviation collect db mb fw :=
  (collect_cross_talk unpack_binary_data calculate_differences_2212
     path pixels db mb fw timestamps delta_window include_offset
     apply_calibration).
Abbreviation dark_count_rate db mb fw :=
  (calculate_dark_count_rate unpack_binary_data apply_mask path db mb fw
     timestamps).

(** C8.  When one of the two board numbers is not a string, both
    programs raise [TypeError] at once: the world they leave is the world
    they found, with no directory entered or listed and no file read. *)
Theorem board_numbers_are_checked_first
    (daughterboard_number motherboard_number firmware_version : pyval)
    (w : world) :
  isinstance_str daughterboard_number = false
  \/ isinstance_str motherboard_number = false ->
  collect daughterboard_number motherboard_number firmware_version w
    = (Raise TypeError, w)
  /\ dark_count_rate daughterboard_number motherboard_number firmware_version w
    = (Raise TypeError, w).
Proof.
  unfold collect_cross_talk, calculate_dark_count_rate, raise.
  intros [H | H].
  - rewrite H. simpl. split; [reflexivity|].
    destruct (isinstance_str firmware_version); reflexivity.
  - rewrite H. simpl. split.
    + destruct (isinstance_str daughterboard_number); reflexivity.
    + destruct (isinstance_str firmware_version),
        (isinstance_str daughterboard_number); reflexivity.
Qed.

(** C2, as the program has it.  With a firmware tag that is neither
    "2212s" nor "2212b", string board numbers and at least one data file
    in the folder, both programs stop with [SystemExit] in the first pass
    of the file loop: the folder has been entered and listed by then, and
    no data file is unpacked and nothing is written. *)
Theorem unrecognized_firmware_exits_at_first_file
    (daughterboard_number motherboard_number : pyval) (tag : string)
    (w : world) (file : string) (files : list string) :
  isinstance_str daughterboard_number = true ->
  isinstance_str motherboard_number = true ->
  tag <> "2212s" -> tag <> "2212b" ->
  dat_files w = file :: files ->
  collect daughterboard_number motherboard_number (PyStr tag) w
    = (Raise SystemExit, after [Chdir path; Glob "*.dat*"] w)
  /\ dark_count_rate daughterboard_number motherboard_number (PyStr tag) w
    = (Raise SystemExit, after [Chdir path; Glob "*.dat*"] w).
Proof.
  intros Hdb Hmb Hs Hb Hfiles.
  assert (Hpc : pix_coor_of (PyStr tag) = Raise SystemExit).
  { unfold pix_coor_of, py_eq_str.
    apply String.eqb_neq in Hs, Hb. now rewrite Hs, Hb. }
  unfold collect_cross_talk, calculate_dark_count_rate, after.
  rewrite Hdb, Hmb. destruct w as [fs dir evs]. simpl in Hfiles. subst fs.
  cbn. unfold io_bind; cbn. unfold pure. rewrite Hpc.
  rewrite <- !app_assoc. split; reflexivity.
Qed.

(** ** Recomputation *)

Variables daughterboard_number motherboard_number firmware_version : pyval.

Abbreviation loop :=
  (files_loop unpack_binary_data calculate_differences_2212 pixels
     daughterboard_number motherboard_number firmware_version timestamps
     delta_window include_offset apply_calibration).

Lemma after_after (evs1 evs2 : list event) (w : world) :
  after evs2 (after evs1 w) = after (evs1 ++ evs2) w.
Proof. unfold after. simpl. now rewrite app_assoc. Qed.

Lemma after_nil (w : world) : after [] w = w.
Proof. destruct w. unfold after. simpl. now rewrite app_nil_r. Qed.

(** One pass of the file loop. *)
Lemma files_loop_cons (file : string) (files : list string) (w : world) :
  loop (file :: files) w =
  match pix_coor_of firmware_version with
  | Raise e => (Raise e, w)
  | Ok pix_coor =>
      match
        file_rows calculate_differences_2212 file pix_coor
          (unpack_binary_data file daughterboard_number motherboard_number
             firmware_version timestamps include_offset (Some apply_calibration))
          delta_window pixels
      with
      | Raise e => (Raise e, after [Unpack file] w)
      | Ok rows =>
          match loop files (after [Unpack file] w) with
          | (Ok rest, w') => (Ok (rows ++ rest)%list, w')
          | (Raise e, w') => (Raise e, w')
          end
      end
  end.
Proof.
  cbn [files_loop bind Monad_io]. unfold io_bind at 1. unfold pure at 1.
  destruct (pix_coor_of firmware_version) as [pix_coor|]; [|reflexivity].
  unfold io_bind at 1. unfold unpack at 1. cbn [bind Monad_io ret].
  unfold io_bind at 1. unfold log at 1, modify at 1, io_ret at 1.
  fold (after [Unpack file] w).
  unfold io_bind at 1. unfold pure at 1.
  match goal with
  | |- context [file_rows ?c ?f ?pc ?d ?dw ?px] =>
      destruct (file_rows c f pc d dw px) as [rows|]; [|reflexivity]
  end.
  unfold io_bind at 1.
  destruct (files_loop _ _ _ _ _ _ _ _ _ _ files (after [Unpack file] w))
    as [[rest|] w']; reflexivity.
Qed.

(** A file loop that runs to its end has unpacked every file, in order,
    and has done nothing else. *)
Lemma files_loop_unpacks_all (files : list string) (w w' : world)
    (table : list row) :
  loop files w = (Ok table, w') -> w' = after (map Unpack files) w.
Proof.
  revert w w' table. induction files as [|file files IH]; intros w w' table.
  - cbn. unfold io_ret. intros H. injection H as _ <-. now rewrite after_nil.
  - rewrite files_loop_cons.
    destruct (pix_coor_of firmware_version) as [pix_coor|]; [|discriminate 1].
    destruct (file_rows _ _ _ _ _ _) as [rows|]; [|discriminate 1].
    destruct (loop files (after [Unpack file] w)) as [[rest|] w2] eqn:Hrest;
      [|discriminate 1].
    apply IH in Hrest. intros H. injection H as _ <-.
    subst w2. now rewrite after_after.
Qed.

(** The table does not depend on what is on disk. *)
Lemma files_loop_table (files : list string) (w1 w2 : world) :
  fst (loop files w1) = fst (loop files w2).
Proof.
  revert w1 w2. induction files as [|file files IH]; intros w1 w2; [reflexivity|].
  rewrite !files_loop_cons.
  destruct (pix_coor_of firmware_version) as [pix_coor|]; [|reflexivity].
  destruct (file_rows _ _ _ _ _ _) as [rows|]; [|reflexivity].
  specialize (IH (after [Unpack file] w1) (after [Unpack file] w2)).
  destruct (loop files (after [Unpack file] w1)) as [[r1|e1] w1'],
           (loop files (after [Unpack file] w2)) as [[r2|e2] w2'];
    simpl in IH; try discriminate IH; injection IH as ->; reflexivity.
Qed.

Lemma unpack_calls_after (evs : list event) (w : world) :
  unpack_calls (after evs w)
  = (unpack_calls w + List.length (filter is_unpack evs))%nat.
Proof.
  unfold unpack_calls, after. simpl. now rewrite filter_app, length_app.
Qed.

Lemma unpack_calls_map_Unpack (files : list string) :
  List.length (filter is_unpack (map Unpack files)) = List.length files.
Proof. induction files; simpl; congruence. Qed.

(** The last lines of [collect_cross_talk]: enter the output folder,
    look for the table, write it in either case. *)
Lemma table_is_written (name : string) (table : list row) (w : world) :
  exists w',
    (enter_cross_talk_data ;;
     found <- glob_csv name ;;
     match found with
     | [] => to_csv name table
     | _ :: _ => to_csv name table
     end) w = (Ok tt, w')
    /\ unpack_calls w' = unpack_calls w
    /\ artifact name w' = Some table.
Proof.
  destruct w as [fs [dir|] evs].
  - cbn. unfold io_bind; cbn.
    destruct (filter (occurs_in name) (map fst dir));
      (eexists; split; [reflexivity|]);
      unfold unpack_calls, artifact; cbn;
      rewrite String.eqb_refl, !filter_app, !length_app; cbn;
      (split; [lia|reflexivity]).
  - cbn. unfold io_bind; cbn.
    eexists; split; [reflexivity|].
    unfold unpack_calls, artifact; cbn.
    rewrite String.eqb_refl, !filter_app, !length_app; cbn.
    split; [lia|reflexivity].
Qed.

(** [collect_cross_talk] once the board numbers have passed the check. *)
Lemma collect_cross_talk_eq (w : world) :
  isinstance_str daughterboard_number = true ->
  isinstance_str motherboard_number = true ->
  collect daughterboard_number motherboard_number firmware_version w =
  match loop (dat_files w) (after [Chdir path; Glob "*.dat*"] w) with
  | (Raise e, w') => (Raise e, w')
  | (Ok table, w') =>
      match dat_files w with
      | [] => (Raise IndexError, w')
      | file :: files =>
          (enter_cross_talk_data ;;
           found <- glob_csv (csv_name file (List.last files file)) ;;
           match found with
           | [] => to_csv (csv_name file (List.last files file)) table
           | _ :: _ => to_csv (csv_name file (List.last files file)) table
           end) w'
      end
  end.
Proof.
  intros Hdb Hmb. unfold collect_cross_talk. rewrite Hdb, Hmb.
  cbn [negb bind Monad_io]. unfold io_bind at 1. unfold chdir at 1, log at 1, modify at 1.
  unfold io_bind at 1. unfold glob_dat at 1. cbn [bind Monad_io ret].
  unfold io_bind at 1. unfold log at 1, modify at 1.
  unfold io_bind at 1. unfold get at 1. unfold io_ret at 1.
  cbn [dat_files cross_talk_data events].
  rewrite <- app_assoc. cbn [app]. fold (after [Chdir path; Glob "*.dat*"] w).
  unfold io_bind at 1.
  destruct (files_loop _ _ _ _ _ _ _ _ _ _ (dat_files w) _) as [[table|e] w'];
    [|reflexivity].
  unfold io_bind at 1. unfold pure at 1.
  destruct (dat_files w) as [|file files]; [reflexivity|].
  cbn [Np.first]. unfold io_bind at 1. unfold pure at 1. cbn [last_item].
  reflexivity.
Qed.

(** C1, as the program has it.  [collect_cross_talk] has no rewrite
    option and never looks for an earlier table before it computes: a
    run that completes has unpacked every data file of the folder once
    more and has saved the table it computed under the name of the file
    set, whether or not such a table was there before. *)
Theorem every_run_recomputes_and_overwrites (w : world) :
  fst (collect daughterboard_number motherboard_number firmware_version w)
    = Ok tt ->
  exists first_file last_file table,
    Np.first (dat_files w) = Ok first_file
    /\ last_item (dat_files w) = Ok last_file
    /\ fst (loop (dat_files w) w) = Ok table
    /\ unpack_calls
         (snd (collect daughterboard_number motherboard_number
                 firmware_version w))
       = (unpack_calls w + List.length (dat_files w))%nat
    /\ artifact (csv_name first_file last_file)
         (snd (collect daughterboard_number motherboard_number
                 firmware_version w))
       = Some table.
Proof.
  destruct (isinstance_str daughterboard_number) eqn:Hdb;
    [|unfold collect_cross_talk; rewrite Hdb; discriminate 1].
  destruct (isinstance_str motherboard_number) eqn:Hmb;
    [|unfold collect_cross_talk; rewrite Hdb, Hmb; discriminate 1].
  rewrite (collect_cross_talk_eq w Hdb Hmb).
  pose proof (files_loop_table (dat_files w)
                (after [Chdir path; Glob "*.dat*"] w) w) as Htable.
  destruct (loop (dat_files w) (after [Chdir path; Glob "*.dat*"] w))
    as [[table|e] w'] eqn:Hloop; [|discriminate 1].
  apply files_loop_unpacks_all in Hloop.
  destruct (dat_files w) as [|file files] eqn:Hfiles; [discriminate 1|].
  intros _.
  destruct (table_is_written (csv_name file (List.last files file)) table w')
    as [w'' [Hrun [Hcalls Hart]]].
  rewrite Hrun. cbn [fst snd].
  exists file, (List.last files file), table.
  split; [reflexivity|]. split; [reflexivity|].
  split; [symmetry; exact Htable|]. split; [|exact Hart].
  rewrite Hcalls, Hloop, !unpack_calls_after, unpack_calls_map_Unpack.
  cbn. lia.
Qed.

End Configuration.

(** ** One file *)

Lemma pix_coor_of_grid (firmware_version : pyval) (pix_coor : list (list Z)) :
  pix_coor_of firmware_version = Ok pix_coor -> maps_onto_grid pix_coor 64 4.
Proof.
  unfold pix_coor_of.
  destruct (py_eq_str firmware_version "2212s").
  - intros H. injection H as <-. apply grid_check_sound. vm_compute. reflexivity.
  - destruct (py_eq_str firmware_version "2212b"); [|discriminate 1].
    intros H. injection H as <-. apply grid_check_sound. vm_compute. reflexivity.
Qed.

(** With 64 channel arrays every pixel below 256 has its timestamps. *)
Lemma pixel_data_defined (pix_coor : list (list Z)) (data_all : data_all_t) (p : Z) :
  maps_onto_grid pix_coor 64 4 ->
  List.length data_all = 64%nat ->
  0 <= p < 256 ->
  exists data, pixel_data pix_coor data_all p = Ok data.
Proof.
  intros [Hfwd _] Hlen Hp.
  destruct (Hfwd p Hp) as [tdc [pix_c [Hc [Htdc _]]]].
  unfold pixel_data, pixel_rows. cbn [bind Monad_result].
  rewrite Hc. cbn [result_bind]. unfold Np.item.
  destruct (nth_error data_all tdc) as [ch|] eqn:Hch.
  - cbn. eexists. reflexivity.
  - apply nth_error_None in Hch. lia.
Qed.

(** The lookups of a pixel fail with [IndexError] only. *)
Lemma pixel_data_raises (pix_coor : list (list Z)) (data_all : data_all_t)
    (p : Z) (e : exn) :
  pixel_data pix_coor data_all p = Raise e -> e = IndexError.
Proof.
  unfold pixel_data, pixel_rows, pixel_coordinates, Np.first, Np.item.
  cbn [bind Monad_result].
  destruct (Np.argwhere pix_coor p) as [|[tdc pix_c] rest]; cbn; [congruence|].
  destruct (nth_error data_all tdc); cbn; congruence.
Qed.

Lemma pixel_data_channel_0 (pix_coor : list (list Z)) (data_all : data_all_t)
    (p : Z) (data : list Z) :
  pixel_data pix_coor data_all p = Ok data ->
  exists ch0, nth_error data_all 0 = Some ch0.
Proof.
  unfold pixel_data, pixel_rows, Np.item. cbn [bind Monad_result].
  destruct (pixel_coordinates pix_coor p) as [[tdc pix_c]|]; cbn; [|discriminate 1].
  destruct (nth_error data_all tdc) as [ch|] eqn:Hch; cbn; [|discriminate 1].
  intros _. destruct data_all as [|ch0 rest]; [|now exists ch0].
  destruct tdc; discriminate Hch.
Qed.

Section OneFileFacts.

Variable calculate_differences_2212 :
  list Z -> list Z -> list nat -> Z -> list Z.
Variable file : string.
Variable pix_coor : list (list Z).
Variable data_all : data_all_t.
Variable delta_window : Z.

Abbreviation pairs :=
  (pairs_loop calculate_differences_2212 file pix_coor data_all delta_window).
Abbreviation rows_of :=
  (file_rows calculate_differences_2212 file pix_coor data_all delta_window).

(** The pass for one pixel uses what the later passes return, and
    nothing else of the pixels that follow. *)
Lemma pairs_loop_congr (pixel0 : Z) (data1 : list Z) (cycle_ends : list nat)
    (pixel_j : Z) (others1 others2 : list Z) :
  pairs pixel0 data1 cycle_ends others1 = pairs pixel0 data1 cycle_ends others2 ->
  pairs pixel0 data1 cycle_ends (pixel_j :: others1)
  = pairs pixel0 data1 cycle_ends (pixel_j :: others2).
Proof.
  intros H. cbn [pairs_loop]. now rewrite H.
Qed.

Lemma pairs_loop_skip (pixel0 : Z) (data1 : list Z) (cycle_ends : list nat)
    (before : list Z) (pixel_j : Z) (others : list Z) :
  pixel_j <= pixel0 ->
  pairs pixel0 data1 cycle_ends (before ++ pixel_j :: others)
  = pairs pixel0 data1 cycle_ends (before ++ others).
Proof.
  intros Hle. induction before as [|p before IH].
  - cbn [app pairs_loop]. apply Z.leb_le in Hle. now rewrite Hle.
  - rewrite <- !app_comm_cons. now apply pairs_loop_congr.
Qed.

Lemma pairs_loop_rows (pixel0 : Z) (data1 : list Z) (cycle_ends : list nat)
    (others : list Z) (rows : list row) :
  pairs pixel0 data1 cycle_ends others = Ok rows ->
  Forall (fun r =>
            File r = file /\ Pixel_1 r = pixel0 /\ pixel0 < Pixel_2 r
            /\ Timestamps_1 r = valid_timestamps data1
            /\ (1 <= Timestamps_1 r)%nat
            /\ truediv (Deltas r * 100) (Timestamps_1 r + Timestamps_2 r)
               = Ok (CT r)
            /\ exists data2,
                 pixel_data pix_coor data_all (Pixel_2 r) = Ok data2
                 /\ Timestamps_2 r = valid_timestamps data2
                 /\ Deltas r
                    = List.length
                        (calculate_differences_2212 data1 data2 cycle_ends
                           delta_window)) rows.
Proof.
  revert rows. induction others as [|pixel_j others IH]; intros rows.
  - cbn. intros H. injection H as <-. constructor.
  - cbn [pairs_loop].
    destruct (pixel_j <=? pixel0) eqn:Hle; [exact (IH rows)|].
    destruct (pixel_data pix_coor data_all pixel_j) as [data2|] eqn:Hd2;
      cbn [bind Monad_result result_bind]; [|discriminate 1].
    destruct (Nat.eqb (valid_timestamps data1) 0) eqn:Hz; [exact (IH rows)|].
    destruct (truediv _ _) as [ct|] eqn:Hct; cbn [result_bind]; [|discriminate 1].
    destruct (pairs pixel0 data1 cycle_ends others) as [rest|];
      cbn [result_bind]; [|discriminate 1].
    cbn [ret]. intros H. injection H as <-.
    constructor; [|apply IH; reflexivity].
    cbn. apply Nat.eqb_neq in Hz. apply Z.leb_gt in Hle.
    repeat split; auto; try lia.
    exists data2. auto.
Qed.

Lemma pairs_loop_raises (pixel0 : Z) (data1 : list Z) (cycle_ends : list nat)
    (others : list Z) (e : exn) :
  pairs pixel0 data1 cycle_ends others = Raise e -> e = IndexError.
Proof.
  induction others as [|pixel_j others IH]; [discriminate 1|].
  cbn [pairs_loop].
  destruct (pixel_j <=? pixel0); [exact IH|].
  destruct (pixel_data pix_coor data_all pixel_j) as [data2|] eqn:Hd2;
    cbn [bind Monad_result result_bind].
  - destruct (Nat.eqb (valid_timestamps data1) 0) eqn:Hz; [exact IH|].
    apply Nat.eqb_neq in Hz.
    destruct (valid_timestamps data1) as [|n]; [congruence|].
    cbn [truediv Nat.add result_bind].
    destruct (pairs pixel0 data1 cycle_ends others) as [rest|];
      cbn [result_bind]; [discriminate 1|exact IH].
  - intros H. injection H as <-. eapply pixel_data_raises, Hd2.
Qed.

(** What [file_rows] does before it enters the loop over the pairs. *)
Lemma file_rows_inv (pixels : list Z) (rows : list row) :
  rows_of pixels = Ok rows ->
  exists pixel0 data1 ch0,
    Np.first pixels = Ok pixel0
    /\ pixel_data pix_coor data_all pixel0 = Ok data1
    /\ nth_error data_all 0 = Some ch0
    /\ pairs pixel0 data1 (cycle_ends_of ch0) (tl pixels) = Ok rows.
Proof.
  unfold file_rows, file_cycle_ends, Np.item. cbn [bind Monad_result].
  destruct (Np.first pixels) as [pixel0|]; cbn [result_bind]; [|discriminate 1].
  destruct (pixel_data pix_coor data_all pixel0) as [data1|] eqn:Hd1;
    cbn [result_bind]; [|discriminate 1].
  destruct (nth_error data_all 0) as [ch0|]; cbn [result_bind ret Monad_result];
    [|discriminate 1].
  intros H. now exists pixel0, data1, ch0.
Qed.

Lemma file_rows_raises (pixels : list Z) (e : exn) :
  rows_of pixels = Raise e -> e = IndexError.
Proof.
  unfold file_rows, file_cycle_ends, Np.item, Np.first. cbn [bind Monad_result].
  destruct pixels as [|pixel0 others]; cbn [result_bind]; [congruence|].
  destruct (pixel_data pix_coor data_all pixel0) as [data1|] eqn:Hd1;
    cbn [result_bind].
  - destruct (nth_error data_all 0) as [ch0|]; cbn [result_bind ret Monad_result];
      [apply pairs_loop_raises|congruence].
  - intros H. injection H as <-. eapply pixel_data_raises, Hd1.
Qed.

(** C4.  A pixel that does not exceed the first pixel of the list is
    passed over: the file yields exactly what it yields when that pixel
    is taken out of the list, be it a table or an exception, so the pair
    adds no row, raises nothing, and the pairs after it are processed;
    and no row of a table has a second pixel that is not above the
    first. *)
Theorem pairs_not_above_the_first_pixel_are_skipped
    (pixel0 : Z) (before : list Z) (pixel_j : Z) (others : list Z) :
  pixel_j <= pixel0 ->
  file_rows calculate_differences_2212 file pix_coor data_all delta_window (pixel0 :: before ++ pixel_j :: others)
  = file_rows calculate_differences_2212 file pix_coor data_all delta_window (pixel0 :: before ++ others)
  /\ forall rows,
       file_rows calculate_differences_2212 file pix_coor data_all delta_window (pixel0 :: before ++ pixel_j :: others) = Ok rows ->
       Forall (fun r => Pixel_1 r = pixel0 /\ Pixel_1 r < Pixel_2 r) rows.
Proof.
  intros Hle. split.
  - unfold file_rows. cbn [bind Monad_result Np.first result_bind tl].
    destruct (pixel_data pix_coor data_all pixel0) as [data1|];
      cbn [result_bind]; [|reflexivity].
    destruct (file_cycle_ends data_all) as [cycle_ends|];
      cbn [result_bind]; [|reflexivity].
    now apply pairs_loop_skip.
  - intros rows Hrows. apply file_rows_inv in Hrows.
    destruct Hrows as (p0 & data1 & ch0 & Hp0 & _ & _ & Hpairs).
    injection Hp0 as <-. apply pairs_loop_rows in Hpairs.
    eapply Forall_impl; [|exact Hpairs]. cbn beta.
    intros r (_ & H1 & H2 & _). split; [exact H1|]. now rewrite H1.
Qed.

(** C9.  Every row of the table was appended after the test on the
    first pixel: its count of valid timestamps is at least one, the sum
    of the two counts is positive, and the percentage is the quotient
    that true division yields, never [ZeroDivisionError].  The file
    as a whole never fails with that exception either. *)
Theorem cross_talk_percentage_never_divides_by_zero (pixels : list Z) :
  file_rows calculate_differences_2212 file pix_coor data_all delta_window pixels <> Raise ZeroDivisionError
  /\ forall rows,
       file_rows calculate_differences_2212 file pix_coor data_all delta_window pixels = Ok rows ->
       Forall (fun r =>
                 (1 <= Timestamps_1 r)%nat
                 /\ (0 < Timestamps_1 r + Timestamps_2 r)%nat
                 /\ truediv (Deltas r * 100) (Timestamps_1 r + Timestamps_2 r)
                    = Ok (CT r)) rows.
Proof.
  split.
  - intros H. apply file_rows_raises in H. discriminate H.
  - intros rows Hrows. apply file_rows_inv in Hrows.
    destruct Hrows as (p0 & data1 & ch0 & _ & _ & _ & Hpairs).
    apply pairs_loop_rows in Hpairs.
    eapply Forall_impl; [|exact Hpairs]. cbn beta.
    intros r (_ & _ & _ & _ & H1 & H2 & _). repeat split; [exact H1|lia|exact H2].
Qed.

End OneFileFacts.

(** ** A file in which the first pixel is silent *)

Section SilentFirstPixel.

Variable unpack_binary_data :
  string -> pyval -> pyval -> pyval -> Z -> bool -> option bool -> data_all_t.
Variable calculate_differences_2212 :
  list Z -> list Z -> list nat -> Z -> list Z.
Variable pixels : list Z.
Variables daughterboard_number motherboard_number firmware_version : pyval.
Variable timestamps : Z.
Variable delta_window : Z.
Variable include_offset apply_calibration : bool.

Lemma pairs_loop_silent (file : string) (pix_coor : list (list Z))
    (data_all : data_all_t) (pixel0 : Z) (data1 : list Z)
    (cycle_ends : list nat) (others : list Z) :
  maps_onto_grid pix_coor 64 4 ->
  List.length data_all = 64%nat ->
  Forall (fun p => 0 <= p < 256) others ->
  valid_timestamps data1 = 0%nat ->
  pairs_loop calculate_differences_2212 file pix_coor data_all delta_window
    pixel0 data1 cycle_ends others = Ok [].
Proof.
  intros Hgrid Hlen Hall Hzero.
  induction Hall as [|pixel_j others Hj Hall IH]; [reflexivity|].
  cbn [pairs_loop]. destruct (pixel_j <=? pixel0); [exact IH|].
  destruct (@pixel_data_defined pix_coor data_all pixel_j Hgrid Hlen Hj)
    as [data2 Hd2].
  rewrite Hd2. cbn [bind Monad_result result_bind]. rewrite Hzero. exact IH.
Qed.

(** C5.  Take a file of 64 channel arrays, read under a recognized
    firmware tag, and a list of pixels below 256.  If the first pixel has
    no valid timestamp in the file, the file adds no row for any pair and
    raises nothing, and the file loop goes on with the remaining files
    exactly as it would have without this file's rows. *)
Theorem silent_first_pixel_skips_the_file
    (file : string) (files : list string) (w : world)
    (pix_coor : list (list Z)) (pixel0 : Z) (others : list Z)
    (data1 : list Z) :
  pix_coor_of firmware_version = Ok pix_coor ->
  List.length
    (unpack_binary_data file daughterboard_number motherboard_number
       firmware_version timestamps include_offset (Some apply_calibration))
  = 64%nat ->
  pixels = pixel0 :: others ->
  Forall (fun p => 0 <= p < 256) others ->
  pixel_data pix_coor
    (unpack_binary_data file daughterboard_number motherboard_number
       firmware_version timestamps include_offset (Some apply_calibration))
    pixel0 = Ok data1 ->
  valid_timestamps data1 = 0%nat ->
  file_rows calculate_differences_2212 file pix_coor
    (unpack_binary_data file daughterboard_number motherboard_number
       firmware_version timestamps include_offset (Some apply_calibration))
    delta_window pixels = Ok []
  /\ files_loop unpack_binary_data calculate_differences_2212 pixels
       daughterboard_number motherboard_number firmware_version timestamps
       delta_window include_offset apply_calibration (file :: files) w
     = files_loop unpack_binary_data calculate_differences_2212 pixels
         daughterboard_number motherboard_number firmware_version timestamps
         delta_window include_offset apply_calibration files
         (after [Unpack file] w).
Proof.
  intros Hpc Hlen Hpixels Hall Hd1 Hzero.
  assert (Hrows :
    file_rows calculate_differences_2212 file pix_coor
      (unpack_binary_data file daughterboard_number motherboard_number
         firmware_version timestamps include_offset (Some apply_calibration))
      delta_window pixels = Ok []).
  { subst pixels. unfold file_rows, file_cycle_ends, Np.item.
    cbn [bind Monad_result Np.first result_bind tl]. rewrite Hd1.
    cbn [result_bind].
    destruct (@pixel_data_channel_0 _ _ _ _ Hd1) as [ch0 Hch0]. rewrite Hch0.
    cbn [result_bind ret Monad_result].
    apply pairs_loop_silent; auto. eapply pix_coor_of_grid, Hpc. }
  split; [exact Hrows|].
  rewrite files_loop_cons, Hpc, Hrows.
  destruct (files_loop _ _ _ _ _ _ _ _ _ _ files (after [Unpack file] w))
    as [[rest|e] w']; reflexivity.
Qed.

End SilentFirstPixel.

(** ** Where a difference comes from *)

Section Provenance.

Import DifferenceEngine.

Variables X Y : Type.
Variable stamp_x : X -> Z.
Variable stamp_y : Y -> Z.
Variable f : X -> Y.
Hypothesis stamp_f : forall x, stamp_y (f x) = stamp_x x.

Lemma slice_map (a : list X) (lo hi : nat) :
  Np.slice (map f a) lo hi = map f (Np.slice a lo hi).
Proof. unfold Np.slice. now rewrite skipn_map, firstn_map. Qed.

Lemma filter_in_window_map (window : Z) (a : X) (slice_b : list X) :
  filter (in_window stamp_y window (f a)) (map f slice_b)
  = map f (filter (in_window stamp_x window a) slice_b).
Proof.
  unfold in_window. rewrite stamp_f.
  induction slice_b as [|b slice_b IH]; [reflexivity|]. cbn [map filter].
  rewrite stamp_f.
  destruct (Z.abs (stamp_x b - stamp_x a) <=? window); cbn [map]; now rewrite IH.
Qed.

Lemma cycle_pairs_map (slice_a slice_b : list X) (window : Z) :
  cycle_pairs stamp_y (map f slice_a) (map f slice_b) window
  = map (map_pair f) (cycle_pairs stamp_x slice_a slice_b window).
Proof.
  unfold cycle_pairs. induction slice_a as [|a slice_a IH]; [reflexivity|].
  cbn [map flat_map]. rewrite map_app, IH, filter_in_window_map, !map_map.
  reflexivity.
Qed.

(** The pairs that are found do not depend on what the elements carry
    besides their timestamp. *)
Lemma window_pairs_map (series_a series_b : list X) (boundaries : list nat)
    (window : Z) :
  window_pairs stamp_y (map f series_a) (map f series_b) boundaries window
  = map (map_pair f) (window_pairs stamp_x series_a series_b boundaries window).
Proof.
  induction boundaries as [|lo rest IH]; [reflexivity|].
  cbn [window_pairs]. destruct rest as [|hi rest]; [reflexivity|].
  rewrite map_app, <- IH, !slice_map, cycle_pairs_map. reflexivity.
Qed.

End Provenance.

Section SameRange.

Import DifferenceEngine.

Variable X : Type.
Variable stamp : X -> Z.

Lemma slice_In (a : list X) (lo hi : nat) (x : X) :
  In x (Np.slice a lo hi) ->
  exists i, (lo <= i < hi)%nat /\ nth_error a i = Some x.
Proof.
  unfold Np.slice. intros H. apply In_nth_error in H. destruct H as [k Hk].
  rewrite nth_error_firstn in Hk.
  destruct (Nat.ltb k (hi - lo)) eqn:Hlt; [|discriminate Hk].
  apply Nat.ltb_lt in Hlt. rewrite nth_error_skipn in Hk.
  exists (lo + k)%nat. split; [lia|exact Hk].
Qed.

(** In terms of positions in the two series that are passed in, the
    engine keeps to the cycles: the two members of every pair stand at
    positions of one and the same boundary range, and their difference
    lies inside the window. *)
Lemma window_pairs_same_range (series_a series_b : list X)
    (boundaries : list nat) (window : Z) (a b : X) :
  In (a, b) (window_pairs stamp series_a series_b boundaries window) ->
  exists c lo hi i j,
    nth_error boundaries c = Some lo
    /\ nth_error boundaries (S c) = Some hi
    /\ (lo <= i < hi)%nat /\ (lo <= j < hi)%nat
    /\ nth_error series_a i = Some a
    /\ nth_error series_b j = Some b
    /\ Z.abs (stamp b - stamp a) <= window.
Proof.
  induction boundaries as [|lo rest IH]; [intros []|].
  cbn [window_pairs]. destruct rest as [|hi rest]; [intros []|].
  rewrite in_app_iff. intros [H | H].
  - unfold cycle_pairs in H. apply in_flat_map in H.
    destruct H as [a' [Ha H]]. apply in_map_iff in H.
    destruct H as [b' [E Hb]]. injection E as -> ->.
    apply filter_In in Hb. destruct Hb as [Hb Hw].
    apply slice_In in Ha, Hb.
    destruct Ha as [i [Hi Ha]], Hb as [j [Hj Hb]].
    exists 0%nat, lo, hi, i, j. unfold in_window in Hw.
    apply Z.leb_le in Hw. repeat split; auto; lia.
  - destruct (IH H) as (c & lo' & hi' & i & j & H1 & H2 & H3).
    exists (S c), lo', hi', i, j. repeat split; try apply H3; assumption.
Qed.

End SameRange.

(** The differences that [calculate_differences_2212] returns are the
    differences of the traced pairs, in the same order. *)
Lemma traced_pairs_differences (rows1 rows2 : list (nat * Z))
    (cycle_ends : list nat) (delta_window : Z) :
  map (fun p => snd (snd p) - snd (fst p))
    (DifferenceEngine.traced_pairs rows1 rows2 cycle_ends delta_window)
  = DifferenceEngine.calculate_differences_2212 (map snd rows1) (map snd rows2)
      cycle_ends delta_window.
Proof.
  unfold DifferenceEngine.calculate_differences_2212,
    DifferenceEngine.traced_pairs.
  rewrite (window_pairs_map snd (fun t => t) snd) by reflexivity.
  rewrite map_map. reflexivity.
Qed.

(** The traced series of a pixel is its series of timestamps, and the
    offset that comes with a timestamp is the row of the channel array
    that holds it. *)
Lemma pixel_series_sound (pix_coor : list (list Z)) (data_all : data_all_t)
    (pixel : Z) (rows : list (nat * Z)) :
  pixel_series pix_coor data_all pixel = Ok rows ->
  pixel_data pix_coor data_all pixel = Ok (map snd rows)
  /\ exists tdc pix_c ch,
       pixel_coordinates pix_coor pixel = Ok (tdc, pix_c)
       /\ nth_error data_all tdc = Some ch
       /\ Forall (fun it => nth_error ch (fst it) = Some (Z.of_nat pix_c, snd it))
            rows.
Proof.
  unfold pixel_series, pixel_data, pixel_rows, Np.item.
  cbn [bind Monad_result].
  destruct (pixel_coordinates pix_coor pixel) as [[tdc pix_c]|] eqn:Hc;
    cbn [result_bind]; [|discriminate 1].
  destruct (nth_error data_all tdc) as [ch|] eqn:Hch;
    cbn [result_bind ret Monad_result]; [|discriminate 1].
  intros H. injection H as <-.
  assert (Hsnd : forall idx, map snd (combine idx (Np.take (T1 ch) idx))
                             = Np.take (T1 ch) idx).
  { unfold Np.take. induction idx as [|i idx IH]; [reflexivity|].
    cbn. now rewrite IH. }
  split; [now rewrite Hsnd|].
  exists tdc, pix_c, ch. split; [reflexivity|]. split; [exact Hch|].
  apply Forall_forall. intros [i t] Hin. cbn [fst snd].
  assert (Hi : In i (Np.where_ (Z.eqb (Z.of_nat pix_c)) (T0 ch))
               /\ t = nth i (T1 ch) 0).
  { revert Hin. generalize (Np.where_ (Z.eqb (Z.of_nat pix_c)) (T0 ch)).
    induction l as [|k l IH]; [intros []|]. cbn. intros [E | Hin].
    - injection E as -> <-. auto.
    - destruct (IH Hin). auto. }
  destruct Hi as [Hi ->]. apply where_In in Hi. destruct Hi as [x [Hx Heq]].
  apply Z.eqb_eq in Heq. subst x. unfold T0, T1, channel, record in *.
  rewrite nth_error_map in Hx.
  destruct (nth_error ch i) as [[p t]|] eqn:Hrow; [|discriminate Hx].
  cbn in Hx. injection Hx as ->.
  erewrite (nth_error_nth (map snd ch)); [reflexivity|].
  now rewrite nth_error_map, Hrow.
Qed.

(** C3 fails on a file of two cycles in which pixel 1 fires in the
    first cycle and pixel 0 in the second.  The series handed to the
    difference engine are the timestamps of each pixel alone, [150] and
    [100], while the boundaries [0; 2; 5] are row offsets of channel 0.
    Cut at these boundaries, both timestamps fall into the first range,
    and the difference -50 is returned and counted in the table, although
    its records stand in row 3 (second cycle) and row 0 (first cycle). *)
Theorem cross_cycle_pair_in_two_cycles :
  pix_coor_of (PyStr "2212b") = Ok Sample.b2212
  /\ file_cycle_ends Sample.two_cycles = Ok [0; 2; 5]%nat
  /\ pixel_series Sample.b2212 Sample.two_cycles 0 = Ok [(3%nat, 150)]
  /\ pixel_series Sample.b2212 Sample.two_cycles 1 = Ok [(0%nat, 100)]
  /\ DifferenceEngine.calculate_differences_2212 [150] [100] [0; 2; 5]%nat 10000
     = [-50]
  /\ DifferenceEngine.traced_pairs [(3%nat, 150)] [(0%nat, 100)] [0; 2; 5]%nat
       10000
     = [((3%nat, 150), (0%nat, 100))]
  /\ cycle_of [0; 2; 5]%nat 3 = Some 1%nat
  /\ cycle_of [0; 2; 5]%nat 0 = Some 0%nat
  /\ file_rows DifferenceEngine.calculate_differences_2212 "two_cycles.dat"
       Sample.b2212 Sample.two_cycles 10000 [0; 1]
     = Ok [mk_row "two_cycles.dat" 0 1 1 1 1 (Qmake 100 2)]
  /\ ~ no_cross_cycle_pair Sample.b2212 Sample.two_cycles 0 1 10000.
Proof.
  repeat (split; [vm_compute; reflexivity|]).
  intros H.
  specialize (H [(3%nat, 150)] [(0%nat, 100)] [0; 2; 5]%nat
                eq_refl eq_refl eq_refl).
  vm_compute in H. discriminate H.
Qed.

(** ** The statements at sample inputs *)

(** C1 as it is worded fails: a second run on the same file set, with
    the table of the first run in place, unpacks the file again. *)
Lemma second_run_unpacks_again :
  has_artifact "CT_data_a.dat-a.dat.csv" Sample.after_first_run = true
  /\ fst (Sample.run "2212b" Sample.after_first_run) = Ok tt
  /\ unpack_calls (snd (Sample.run "2212b" Sample.after_first_run))
     = S (unpack_calls Sample.after_first_run)
  /\ ~ no_recomputation (Sample.run "2212b") Sample.after_first_run.
Proof.
  repeat (split; [vm_compute; reflexivity|]).
  unfold no_recomputation. vm_compute. discriminate 1.
Qed.

Lemma every_run_recomputes_and_overwrites_witness :
  exists first_file last_file table,
    Np.first (dat_files Sample.after_first_run) = Ok first_file
    /\ last_item (dat_files Sample.after_first_run) = Ok last_file
    /\ fst (files_loop Sample.unpack_binary_data
              DifferenceEngine.calculate_differences_2212 [0; 1]
              (PyStr "NL11") (PyStr "#33") (PyStr "2212b") 2 10000 true true
              (dat_files Sample.after_first_run) Sample.after_first_run)
       = Ok table
    /\ unpack_calls (snd (Sample.run "2212b" Sample.after_first_run))
       = (unpack_calls Sample.after_first_run
          + List.length (dat_files Sample.after_first_run))%nat
    /\ artifact (csv_name first_file last_file)
         (snd (Sample.run "2212b" Sample.after_first_run))
       = Some table.
Proof.
  apply (every_run_recomputes_and_overwrites Sample.unpack_binary_data
           DifferenceEngine.calculate_differences_2212 "data" [0; 1] 2 10000
           true true (PyStr "NL11") (PyStr "#33") (PyStr "2212b")
           Sample.after_first_run).
  vm_compute. reflexivity.
Defined.

(** C2 as it is worded fails in a folder without data files: the file
    loop, which holds the test of the firmware tag, is not entered.
    [collect_cross_talk] goes on to [files[0]] and stops there with
    [IndexError]; [calculate_dark_count_rate] reads the mask and returns
    [nan].  In a folder with a data file the programs do stop with
    [SystemExit], but the folder has been entered and listed by then. *)
Lemma unrecognized_firmware_in_an_empty_folder :
  Sample.run "9999b" (Sample.world_of [])
  = (Raise IndexError,
     after [Chdir "data"; Glob "*.dat*"] (Sample.world_of []))
  /\ Sample.run_dcr "9999b" (Sample.world_of [])
     = (Ok NaN,
        after [Chdir "data"; Glob "*.dat*"; ReadMask] (Sample.world_of []))
  /\ ~ fatal_before_io (Sample.run "9999b") (Sample.world_of [])
  /\ ~ fatal_before_io (Sample.run_dcr "9999b") (Sample.world_of [])
  /\ events (snd (Sample.run "9999b" (Sample.world_of ["a.dat"])))
     = [Chdir "data"; Glob "*.dat*"]
  /\ ~ fatal_before_io (Sample.run "9999b") (Sample.world_of ["a.dat"]).
Proof.
  split; [vm_compute; reflexivity|]. split; [vm_compute; reflexivity|].
  split; [intros [[H | H] _]; vm_compute in H; discriminate H|].
  split; [intros [[H | H] _]; vm_compute in H; discriminate H|].
  split; [vm_compute; reflexivity|].
  intros [_ H]. vm_compute in H. discriminate H.
Qed.

Lemma unrecognized_firmware_exits_at_first_file_witness :
  Sample.run "9999b" (Sample.world_of ["a.dat"; "b.dat"])
  = (Raise SystemExit,
     after [Chdir "data"; Glob "*.dat*"] (Sample.world_of ["a.dat"; "b.dat"]))
  /\ Sample.run_dcr "9999b" (Sample.world_of ["a.dat"; "b.dat"])
     = (Raise SystemExit,
        after [Chdir "data"; Glob "*.dat*"] (Sample.world_of ["a.dat"; "b.dat"])).
Proof.
  apply (unrecognized_firmware_exits_at_first_file Sample.unpack_binary_data
           DifferenceEngine.calculate_differences_2212 Sample.apply_mask
           "data" [0; 1] 2 10000 true true (PyStr "NL11") (PyStr "#33")
           (tag := "9999b") (Sample.world_of ["a.dat"; "b.dat"])
           (file := "a.dat") (files := ["b.dat"])).
  - reflexivity.
  - reflexivity.
  - discriminate 1.
  - discriminate 1.
  - reflexivity.
Defined.

Lemma board_numbers_are_checked_first_witness :
  collect_cross_talk Sample.unpack_binary_data
    DifferenceEngine.calculate_differences_2212 "data" [0; 1]
    (PyInt 11) (PyStr "#33") (PyStr "2212b") 2 10000 true true
    (Sample.world_of ["a.dat"])
  = (Raise TypeError, Sample.world_of ["a.dat"])
  /\ calculate_dark_count_rate Sample.unpack_binary_data Sample.apply_mask
       "data" (PyInt 11) (PyStr "#33") (PyStr "2212b") 2
       (Sample.world_of ["a.dat"])
     = (Raise TypeError, Sample.world_of ["a.dat"]).
Proof.
  apply board_numbers_are_checked_first. left. reflexivity.
Defined.

Lemma pairs_not_above_the_first_pixel_are_skipped_witness :
  file_rows DifferenceEngine.calculate_differences_2212 "c.dat" Sample.b2212
    Sample.coincident 10000 (1 :: [2] ++ 0 :: [3])
  = file_rows DifferenceEngine.calculate_differences_2212 "c.dat" Sample.b2212
      Sample.coincident 10000 (1 :: [2] ++ [3])
  /\ forall rows,
       file_rows DifferenceEngine.calculate_differences_2212 "c.dat"
         Sample.b2212 Sample.coincident 10000 (1 :: [2] ++ 0 :: [3]) = Ok rows ->
       Forall (fun r => Pixel_1 r = 1 /\ Pixel_1 r < Pixel_2 r) rows.
Proof.
  apply (@pairs_not_above_the_first_pixel_are_skipped
           DifferenceEngine.calculate_differences_2212 "c.dat" Sample.b2212
           Sample.coincident 10000 1 [2] 0 [3]).
  lia.
Defined.

Lemma silent_first_pixel_skips_the_file_witness :
  file_rows DifferenceEngine.calculate_differences_2212 "silent.dat"
    Sample.b2212 Sample.silent 10000 [0; 1] = Ok []
  /\ files_loop Sample.unpack_binary_data
       DifferenceEngine.calculate_differences_2212 [0; 1]
       (PyStr "NL11") (PyStr "#33") (PyStr "2212b") 2 10000 true true
       ["silent.dat"; "c.dat"] (Sample.world_of ["silent.dat"; "c.dat"])
     = files_loop Sample.unpack_binary_data
         DifferenceEngine.calculate_differences_2212 [0; 1]
         (PyStr "NL11") (PyStr "#33") (PyStr "2212b") 2 10000 true true
         ["c.dat"]
         (after [Unpack "silent.dat"] (Sample.world_of ["silent.dat"; "c.dat"])).
Proof.
  apply (@silent_first_pixel_skips_the_file Sample.unpack_binary_data
           DifferenceEngine.calculate_differences_2212
           [0; 1] (PyStr "NL11") (PyStr "#33") (PyStr "2212b")
           2 10000 true true "silent.dat" ["c.dat"]
           (Sample.world_of ["silent.dat"; "c.dat"])
           Sample.b2212 0 [1] []).
  - reflexivity.
  - reflexivity.
  - reflexivity.
  - repeat constructor; lia.
  - vm_compute. reflexivity.
  - reflexivity.
Defined.

Lemma cross_talk_percentage_never_divides_by_zero_witness :
  Forall (fun r =>
            (1 <= Timestamps_1 r)%nat
            /\ (0 < Timestamps_1 r + Timestamps_2 r)%nat
            /\ truediv (Deltas r * 100) (Timestamps_1 r + Timestamps_2 r)
               = Ok (CT r))
    [mk_row "c.dat" 0 1 1 1 1 (Qmake 100 2)].
Proof.
  apply (proj2 (cross_talk_percentage_never_divides_by_zero
                  DifferenceEngine.calculate_differences_2212 "c.dat"
                  Sample.b2212 Sample.coincident 10000 [0; 1])).
  vm_compute. reflexivity.
Defined.

Lemma cycle_ends_start_at_zero_and_increase_witness :
  exists marks,
    cycle_ends_of [(0, 100); (1, 150); (-2, -2); (-1, -1); (-2, -2)]
    = 0%nat :: marks
    /\ StronglySorted lt (0%nat :: marks).
Proof.
  destruct (cycle_ends_start_at_zero_and_increase
              [(0, 100); (1, 150); (-2, -2); (-1, -1); (-2, -2)])
    as (marks & Heq & _ & _ & _ & Hstrict).
  exists marks. split; [exact Heq|].
  apply Hstrict. intros t H. discriminate H.
Defined.

(** * Further properties of the two programs *)

(** ** What a run of [collect_cross_talk] leaves behind *)

Section RunOutcome.

Variable unpack_binary_data :
  string -> pyval -> pyval -> pyval -> Z -> bool -> option bool -> data_all_t.
Variable calculate_differences_2212 :
  list Z -> list Z -> list nat -> Z -> list Z.
Variable path : string.
Variable pixels : list Z.
Variables daughterboard_number motherboard_number firmware_version : pyval.
Variable timestamps : Z.
Variable delta_window : Z.
Variable include_offset apply_calibration : bool.

Abbreviation the_run :=
  (collect_cross_talk unpack_binary_data calculate_differences_2212
     path pixels daughterboard_number motherboard_number firmware_version
     timestamps delta_window include_offset apply_calibration).
Abbreviation the_loop :=
  (files_loop unpack_binary_data calculate_differences_2212 pixels
     daughterboard_number motherboard_number firmware_version timestamps
     delta_window include_offset apply_calibration).

(** The file loop reads; it changes neither the list of data files nor
    the output folder, however it ends. *)
Lemma files_loop_frame (files : list string) (w : world) :
  dat_files (snd (the_loop files w)) = dat_files w
  /\ cross_talk_data (snd (the_loop files w)) = cross_talk_data w.
Proof.
  revert w. induction files as [|file files IH]; intros w; [now split|].
  rewrite files_loop_cons.
  destruct (pix_coor_of firmware_version) as [pix_coor|]; [|now split].
  destruct (file_rows _ _ _ _ _ _) as [rows|]; [|now split].
  specialize (IH (after [Unpack file] w)).
  destruct (the_loop files (after [Unpack file] w)) as [[rest|e] w'];
    exact IH.
Qed.

(** The last lines of [collect_cross_talk], in full. *)
Lemma table_is_written_exactly (name : string) (table : list row) (w : world) :
  (enter_cross_talk_data ;;
   found <- glob_csv name ;;
   match found with
   | [] => to_csv name table
   | _ :: _ => to_csv name table
   end) w
  = (Ok tt,
     mk_world (dat_files w)
       (Some ((name, table)
              :: filter (fun f => negb (String.eqb (fst f) name))
                   (match cross_talk_data w with
                    | Some dir => dir
                    | None => []
                    end)))
       (events w
        ++ match cross_talk_data w with
           | Some _ => []
           | None => [Makedirs "cross_talk_data"]
           end
        ++ [Chdir "cross_talk_data"; Glob ("*" ++ name ++ "*"); ToCsv name])).
Proof.
  destruct w as [fs [dir|] evs];
    cbv beta iota zeta delta
      -[filter occurs_in String.eqb app map String.append negb fst];
    [destruct (filter (occurs_in name) (map fst dir))|cbn [map filter]];
    cbv beta iota zeta delta
      -[filter occurs_in String.eqb app map String.append negb fst];
    rewrite <- !app_assoc; reflexivity.
Qed.

(** The world that a completed run leaves. *)
Lemma completed_run_world (w : world) :
  fst (the_run w) = Ok tt ->
  exists first_file last_file table,
    Np.first (dat_files w) = Ok first_file
    /\ last_item (dat_files w) = Ok last_file
    /\ fst (the_loop (dat_files w) w) = Ok table
    /\ snd (the_run w)
       = mk_world (dat_files w)
           (Some ((csv_name first_file last_file, table)
                  :: filter
                       (fun f =>
                          negb (String.eqb (fst f)
                                  (csv_name first_file last_file)))
                       (match cross_talk_data w with
                        | Some dir => dir
                        | None => []
                        end)))
           (events w
            ++ [Chdir path; Glob "*.dat*"]
            ++ map Unpack (dat_files w)
            ++ match cross_talk_data w with
               | Some _ => []
               | None => [Makedirs "cross_talk_data"]
               end
            ++ [Chdir "cross_talk_data";
                Glob ("*" ++ csv_name first_file last_file ++ "*");
                ToCsv (csv_name first_file last_file)]).
Proof.
  destruct (isinstance_str daughterboard_number) eqn:Hdb;
    [|unfold collect_cross_talk; rewrite Hdb; discriminate 1].
  destruct (isinstance_str motherboard_number) eqn:Hmb;
    [|unfold collect_cross_talk; rewrite Hdb, Hmb; discriminate 1].
  rewrite collect_cross_talk_eq by assumption.
  pose proof (files_loop_table unpack_binary_data calculate_differences_2212
                pixels timestamps delta_window include_offset
                apply_calibration daughterboard_number motherboard_number
                firmware_version (dat_files w)
                (after [Chdir path; Glob "*.dat*"] w) w) as Htable.
  destruct (the_loop (dat_files w) (after [Chdir path; Glob "*.dat*"] w))
    as [[table|e] w'] eqn:Hloop; [|discriminate 1].
  apply files_loop_unpacks_all in Hloop.
  destruct (dat_files w) as [|file files] eqn:Hfiles; [discriminate 1|].
  intros _. rewrite table_is_written_exactly. cbn [fst snd].
  exists file, (List.last files file), table.
  split; [reflexivity|]. split; [reflexivity|].
  split; [symmetry; exact Htable|].
  subst w'. unfold after. cbn [dat_files cross_talk_data events].
  rewrite Hfiles, <- !app_assoc. reflexivity.
Qed.

(** A run that stops with an exception has written nothing: the output
    folder is as it was, neither created nor changed, whatever was
    computed for the files before the exception. *)
Theorem a_failed_run_writes_nothing (w : world) (e : exn) :
  fst (the_run w) = Raise e ->
  cross_talk_data (snd (the_run w)) = cross_talk_data w
  /\ dat_files (snd (the_run w)) = dat_files w.
Proof.
  destruct (isinstance_str daughterboard_number) eqn:Hdb;
    [|unfold collect_cross_talk; rewrite Hdb; now split].
  destruct (isinstance_str motherboard_number) eqn:Hmb;
    [|unfold collect_cross_talk; rewrite Hdb, Hmb; now split].
  rewrite collect_cross_talk_eq by assumption.
  destruct (files_loop_frame (dat_files w)
              (after [Chdir path; Glob "*.dat*"] w)) as [Hf Hd].
  destruct (the_loop (dat_files w) (after [Chdir path; Glob "*.dat*"] w))
    as [[table|e'] w'];
    unfold after in Hf, Hd; cbn [fst snd dat_files cross_talk_data] in *.
  - destruct (dat_files w) as [|file files] eqn:Hfiles.
    + intros _. cbn [snd]. now split.
    + rewrite table_is_written_exactly. discriminate 1.
  - intros _. now split.
Qed.

(** The log of a completed run: the folder is entered and listed, every
    data file is unpacked once, in the order of the listing, the output
    folder is created if and only if it was missing, and the table is
    written once, at the very end. *)
Theorem a_completed_run_logs (w : world) :
  fst (the_run w) = Ok tt ->
  exists first_file last_file,
    Np.first (dat_files w) = Ok first_file
    /\ last_item (dat_files w) = Ok last_file
    /\ events (snd (the_run w))
       = (events w
          ++ [Chdir path; Glob "*.dat*"]
          ++ map Unpack (dat_files w)
          ++ match cross_talk_data w with
             | Some _ => []
             | None => [Makedirs "cross_talk_data"]
             end
          ++ [Chdir "cross_talk_data";
              Glob ("*" ++ csv_name first_file last_file ++ "*");
              ToCsv (csv_name first_file last_file)])%list.
Proof.
  intros H. destruct (completed_run_world w H)
    as (first_file & last_file & table & H1 & H2 & _ & Hw).
  exists first_file, last_file. rewrite Hw. now repeat split.
Qed.

Lemma find_other_name (name other : string) (dir : list (string * list row)) :
  other <> name ->
  find (fun f => String.eqb (fst f) other)
    (filter (fun f => negb (String.eqb (fst f) name)) dir)
  = find (fun f => String.eqb (fst f) other) dir.
Proof.
  intros Hne. induction dir as [|[n t] dir IH]; [reflexivity|].
  cbn [filter find fst]. destruct (String.eqb n name) eqn:Hn; cbn [negb].
  - apply String.eqb_eq in Hn. subst n.
    destruct (String.eqb name other) eqn:Ho; [|exact IH].
    apply String.eqb_eq in Ho. congruence.
  - cbn [find fst]. destruct (String.eqb n other); [reflexivity|exact IH].
Qed.

(** A completed run replaces the table that carries the name of its
    file set and touches no other: a table saved under another name is
    found afterwards as it was before. *)
Theorem a_completed_run_keeps_other_tables (w : world) (other : string) :
  fst (the_run w) = Ok tt ->
  exists first_file last_file,
    Np.first (dat_files w) = Ok first_file
    /\ last_item (dat_files w) = Ok last_file
    /\ (other <> csv_name first_file last_file ->
        artifact other (snd (the_run w)) = artifact other w).
Proof.
  intros H. destruct (completed_run_world w H)
    as (first_file & last_file & table & H1 & H2 & _ & Hw).
  exists first_file, last_file. split; [exact H1|]. split; [exact H2|].
  intros Hne. rewrite Hw. unfold artifact. cbn [cross_talk_data find fst].
  assert (Hhead : String.eqb (csv_name first_file last_file) other = false).
  { apply String.eqb_neq. congruence. }
  rewrite Hhead, find_other_name by exact Hne.
  destruct (cross_talk_data w); reflexivity.
Qed.

(** In a folder without data files [collect_cross_talk] stops at
    [files[0]] with [IndexError], whatever the pixels and the firmware
    tag are; the folder has been entered and listed and nothing else has
    happened. *)
Theorem collect_in_an_empty_folder (w : world) :
  isinstance_str daughterboard_number = true ->
  isinstance_str motherboard_number = true ->
  dat_files w = [] ->
  the_run w = (Raise IndexError, after [Chdir path; Glob "*.dat*"] w).
Proof.
  intros Hdb Hmb Hfiles. rewrite collect_cross_talk_eq by assumption.
  rewrite Hfiles. reflexivity.
Qed.

End RunOutcome.

(** ** The table of one file and of a run *)

Section TableFacts.

Variable calculate_differences_2212 :
  list Z -> list Z -> list nat -> Z -> list Z.
Variable file : string.
Variable pix_coor : list (list Z).
Variable data_all : data_all_t.
Variable delta_window : Z.

Abbreviation the_pairs :=
  (pairs_loop calculate_differences_2212 file pix_coor data_all delta_window).
Abbreviation the_rows :=
  (file_rows calculate_differences_2212 file pix_coor data_all delta_window).

(** A pair loop that returns has looked up every pixel above the first
    one, and its rows follow the order of the pixel list. *)
Lemma pairs_loop_looked_up (pixel0 : Z) (data1 : list Z) (cycle_ends : list nat)
    (others : list Z) (rows : list row) :
  the_pairs pixel0 data1 cycle_ends others = Ok rows ->
  Forall (fun p => pixel0 < p ->
                   exists data2, pixel_data pix_coor data_all p = Ok data2)
    others
  /\ (List.length rows <= List.length others)%nat
  /\ Forall (fun r => In (Pixel_2 r) others) rows.
Proof.
  revert rows. induction others as [|pixel_j others IH]; intros rows.
  - cbn. intros H. injection H as <-. repeat split; constructor.
  - assert (Hweak : forall rs : list row,
              Forall (fun r => In (Pixel_2 r) others) rs ->
              Forall (fun r => In (Pixel_2 r) (pixel_j :: others)) rs).
    { intros rs. apply Forall_impl. intros r Hr. now right. }
    cbn [pairs_loop].
    destruct (pixel_j <=? pixel0) eqn:Hle.
    + intros H. destruct (IH rows H) as (H1 & H2 & H3).
      apply Z.leb_le in Hle. repeat split.
      * constructor; [intros; lia|exact H1].
      * cbn [List.length]. lia.
      * now apply Hweak.
    + destruct (pixel_data pix_coor data_all pixel_j) as [data2|] eqn:Hd2;
        cbn [bind Monad_result result_bind]; [|discriminate 1].
      destruct (Nat.eqb (valid_timestamps data1) 0).
      * intros H. destruct (IH rows H) as (H1 & H2 & H3). repeat split.
        -- constructor; [intros _; now exists data2|exact H1].
        -- cbn [List.length]. lia.
        -- now apply Hweak.
      * destruct (truediv _ _) as [ct|]; cbn [result_bind]; [|discriminate 1].
        destruct (the_pairs pixel0 data1 cycle_ends others) as [rest|];
          cbn [result_bind]; [|discriminate 1].
        cbn [ret Monad_result]. intros H. injection H as <-.
        destruct (IH rest eq_refl) as (H1 & H2 & H3). repeat split.
        -- constructor; [intros _; now exists data2|exact H1].
        -- cbn [List.length]. lia.
        -- constructor; [now left|now apply Hweak].
Qed.

Lemma pixel_data_in_range (p : Z) (data : list Z) :
  maps_onto_grid pix_coor 64 4 ->
  pixel_data pix_coor data_all p = Ok data -> 0 <= p < 256.
Proof.
  intros (_ & _ & _ & Hrange). unfold pixel_data, pixel_rows.
  cbn [bind Monad_result].
  destruct (pixel_coordinates pix_coor p) as [tdc_pix|] eqn:Hc;
    cbn [result_bind]; [|discriminate 1].
  intros _. eapply Hrange, Hc.
Qed.

(** A pixel number outside 0..255 that is used, as the first pixel or as
    a pixel above the first, makes the file fail with [IndexError]: no
    row of the file survives, whatever the other pixels are. *)
Theorem a_pixel_out_of_range_fails_the_file
    (pixel0 : Z) (others : list Z) (p : Z) :
  maps_onto_grid pix_coor 64 4 ->
  p = pixel0 \/ (In p others /\ pixel0 < p) ->
  ~ 0 <= p < 256 ->
  file_rows calculate_differences_2212 file pix_coor data_all delta_window
    (pixel0 :: others) = Raise IndexError.
Proof.
  intros Hgrid Hp Hout.
  destruct (the_rows (pixel0 :: others)) as [rows|e] eqn:Hrows.
  - exfalso. apply Hout. apply file_rows_inv in Hrows.
    destruct Hrows as (p0 & data1 & ch0 & Hp0 & Hd1 & _ & Hpairs).
    injection Hp0 as <-. cbn [tl] in Hpairs.
    destruct Hp as [-> | [Hin Hlt]].
    + eapply pixel_data_in_range; eassumption.
    + apply pairs_loop_looked_up in Hpairs. destruct Hpairs as [Hall _].
      rewrite Forall_forall in Hall.
      destruct (Hall p Hin Hlt) as [data2 Hd2].
      eapply pixel_data_in_range; eassumption.
  - f_equal. eapply file_rows_raises, Hrows.
Qed.

(** On 64 channel arrays, with pixel numbers from 0..255, the file is
    processed to the end. *)
Lemma file_rows_well_formed (pixel0 : Z) (others : list Z) :
  maps_onto_grid pix_coor 64 4 ->
  List.length data_all = 64%nat ->
  Forall (fun p => 0 <= p < 256) (pixel0 :: others) ->
  exists rows,
    file_rows calculate_differences_2212 file pix_coor data_all delta_window
      (pixel0 :: others) = Ok rows
    /\ (List.length rows <= List.length others)%nat
    /\ Forall (fun r => Pixel_1 r = pixel0 /\ In (Pixel_2 r) others) rows.
Proof.
  intros Hgrid Hlen Hall. inversion Hall as [|? ? H0 Hothers]; subst.
  destruct (@pixel_data_defined pix_coor data_all pixel0 Hgrid Hlen H0)
    as [data1 Hd1].
  destruct (@pixel_data_channel_0 _ _ _ _ Hd1) as [ch0 Hch0].
  assert (Hpairs : exists rows,
            the_pairs pixel0 data1 (cycle_ends_of ch0) others = Ok rows).
  { clear Hall. induction Hothers as [|pixel_j others Hj Hothers IH];
      [now exists []|].
    destruct IH as [rest Hrest]. cbn [pairs_loop].
    destruct (pixel_j <=? pixel0); [now exists rest|].
    destruct (@pixel_data_defined pix_coor data_all pixel_j Hgrid Hlen Hj)
      as [data2 Hd2].
    rewrite Hd2. cbn [bind Monad_result result_bind].
    destruct (Nat.eqb (valid_timestamps data1) 0) eqn:Hz; [now exists rest|].
    apply Nat.eqb_neq in Hz.
    destruct (valid_timestamps data1) as [|n]; [congruence|].
    cbn [truediv Nat.add result_bind]. rewrite Hrest. cbn [result_bind ret].
    eexists. reflexivity. }
  destruct Hpairs as [rows Hpairs]. exists rows.
  assert (Hrows : the_rows (pixel0 :: others) = Ok rows).
  { unfold file_rows, file_cycle_ends, Np.item.
    cbn [bind Monad_result Np.first result_bind tl]. rewrite Hd1.
    cbn [result_bind]. rewrite Hch0. cbn [result_bind ret Monad_result].
    exact Hpairs. }
  split; [exact Hrows|].
  destruct (pairs_loop_looked_up _ _ _ _ Hpairs) as (_ & Hlen' & Hin).
  split; [exact Hlen'|].
  pose proof (pairs_loop_rows _ _ _ _ _ _ _ _ _ Hpairs) as Hfields.
  rewrite Forall_forall in *. intros r Hr. split.
  - now destruct (Hfields r Hr) as (_ & H1 & _).
  - now apply Hin.
Qed.

(** The table of a pair loop that returns, row by row: it is empty when
    the first pixel has no valid timestamp, and has otherwise one row for
    each pixel above the first one, in the order of the pixel list, with
    the differences that the engine returns for the boundaries that the
    loop was given. *)
Lemma pairs_loop_exact (pixel0 : Z) (data1 : list Z) (cycle_ends : list nat)
    (others : list Z) (rows : list row) :
  the_pairs pixel0 data1 cycle_ends others = Ok rows ->
  (valid_timestamps data1 = 0%nat -> rows = [])
  /\ (valid_timestamps data1 <> 0%nat ->
      Forall2
        (fun pixel_j r =>
           exists data2 ct,
             pixel_data pix_coor data_all pixel_j = Ok data2
             /\ truediv
                  (List.length
                     (calculate_differences_2212 data1 data2 cycle_ends
                        delta_window) * 100)
                  (valid_timestamps data1 + valid_timestamps data2) = Ok ct
             /\ r = mk_row file pixel0 pixel_j (valid_timestamps data1)
                      (valid_timestamps data2)
                      (List.length
                         (calculate_differences_2212 data1 data2 cycle_ends
                            delta_window)) ct)
        (filter (fun p => pixel0 <? p) others) rows).
Proof.
  revert rows. induction others as [|pixel_j others IH]; intros rows.
  - cbn. intros H. injection H as <-. split; [reflexivity|constructor].
  - cbn [pairs_loop filter]. rewrite (Z.ltb_antisym pixel_j pixel0).
    destruct (pixel_j <=? pixel0) eqn:Hle; cbn [negb]; [exact (IH rows)|].
    destruct (pixel_data pix_coor data_all pixel_j) as [data2|] eqn:Hd2;
      cbn [bind Monad_result result_bind]; [|discriminate 1].
    destruct (Nat.eqb (valid_timestamps data1) 0) eqn:Hz.
    + apply Nat.eqb_eq in Hz. intros H. destruct (IH rows H) as [Hnone _].
      split; [exact Hnone|]. intros Hsome. contradiction.
    + apply Nat.eqb_neq in Hz.
      destruct (truediv _ _) as [ct|] eqn:Hct; cbn [result_bind];
        [|discriminate 1].
      destruct (the_pairs pixel0 data1 cycle_ends others) as [rest|];
        cbn [result_bind]; [|discriminate 1].
      cbn [ret Monad_result]. intros H. injection H as <-.
      destruct (IH rest eq_refl) as [_ Hrest].
      split; [intros Hnone; contradiction|]. intros _.
      constructor; [|exact (Hrest Hz)].
      exists data2, ct. auto.
Qed.

(** C10.  The boundaries of a file are a function of channel 0 alone:
    data that agree with the file on channel 0 have the same boundaries,
    whatever their other channels hold; they are 0 and the rows of
    [data_all[0]] whose first field is -2.  A file that is processed to
    the end yields no row when its first pixel has no valid timestamp,
    and otherwise exactly one row for each pixel of the list above the
    first one, in the order of the list; every one of these rows counts
    the differences that the engine returns for this one sequence,
    whichever channels the two pixels belong to.  On 64 channel arrays,
    with pixel numbers from 0..255, the file is processed to the end. *)
Theorem one_boundary_sequence_for_every_pair (pixels : list Z) :
  (forall other : data_all_t,
      nth_error other 0 = nth_error data_all 0 ->
      file_cycle_ends other = file_cycle_ends data_all)
  /\ (forall rows,
        file_rows calculate_differences_2212 file pix_coor data_all
          delta_window pixels = Ok rows ->
        exists pixel0 data1 ch0,
          Np.first pixels = Ok pixel0
          /\ pixel_data pix_coor data_all pixel0 = Ok data1
          /\ nth_error data_all 0 = Some ch0
          /\ file_cycle_ends data_all
             = Ok (0%nat :: Np.where_ (Z.eqb (-2)) (T0 ch0))
          /\ (valid_timestamps data1 = 0%nat -> rows = [])
          /\ (valid_timestamps data1 <> 0%nat ->
              Forall2
                (fun pixel_j r =>
                   exists data2 ct,
                     pixel_data pix_coor data_all pixel_j = Ok data2
                     /\ truediv
                          (List.length
                             (calculate_differences_2212 data1 data2
                                (0%nat :: Np.where_ (Z.eqb (-2)) (T0 ch0))
                                delta_window) * 100)
                          (valid_timestamps data1 + valid_timestamps data2)
                        = Ok ct
                     /\ r = mk_row file pixel0 pixel_j
                              (valid_timestamps data1)
                              (valid_timestamps data2)
                              (List.length
                                 (calculate_differences_2212 data1 data2
                                    (0%nat
                                     :: Np.where_ (Z.eqb (-2)) (T0 ch0))
                                    delta_window)) ct)
                (filter (fun p => pixel0 <? p) (tl pixels)) rows))
  /\ (maps_onto_grid pix_coor 64 4 ->
      List.length data_all = 64%nat ->
      pixels <> [] ->
      Forall (fun p => 0 <= p < 256) pixels ->
      exists rows,
        file_rows calculate_differences_2212 file pix_coor data_all
          delta_window pixels = Ok rows).
Proof.
  split; [|split].
  - intros other H. unfold file_cycle_ends, Np.item. now rewrite H.
  - intros rows Hrows. apply file_rows_inv in Hrows.
    destruct Hrows as (p0 & data1 & ch0 & Hp0 & Hd1 & Hch0 & Hpairs).
    exists p0, data1, ch0.
    split; [exact Hp0|]. split; [exact Hd1|]. split; [exact Hch0|].
    split; [unfold file_cycle_ends, Np.item; now rewrite Hch0|].
    exact (pairs_loop_exact _ _ _ _ Hpairs).
  - intros Hgrid Hlen Hsome Hall.
    destruct pixels as [|pixel0 others]; [contradiction|].
    destruct (file_rows_well_formed Hgrid Hlen Hall) as (rows & Hrows & _).
    now exists rows.
Qed.

(** A pixel list with nothing above its first pixel, a single pixel for
    one, is not an error: the file yields the empty table. *)
Theorem nothing_above_the_first_pixel_gives_no_rows
    (pixel0 : Z) (others : list Z) (data1 : list Z) :
  pixel_data pix_coor data_all pixel0 = Ok data1 ->
  Forall (fun p => p <= pixel0) others ->
  file_rows calculate_differences_2212 file pix_coor data_all delta_window
    (pixel0 :: others) = Ok [].
Proof.
  intros Hd1 Hall.
  destruct (@pixel_data_channel_0 _ _ _ _ Hd1) as [ch0 Hch0].
  unfold file_rows, file_cycle_ends, Np.item.
  cbn [bind Monad_result Np.first result_bind tl]. rewrite Hd1.
  cbn [result_bind]. rewrite Hch0. cbn [result_bind ret Monad_result].
  induction Hall as [|pixel_j others Hj Hall IH]; [reflexivity|].
  cbn [pairs_loop]. apply Z.leb_le in Hj. now rewrite Hj.
Qed.

End TableFacts.

(** The boundaries of channel 0 at a file whose channels end their cycles
    at different rows.  Channel 0 gives the boundaries 0, 1, 5 and the
    pair of the pixels 4 and 5 of channel 1 two differences; the marks of
    channel 1 itself, 0, 2, 5, would give four. *)
Lemma one_boundary_sequence_for_every_pair_witness :
  (exists pixel0 data1 ch0,
      Np.first [4; 5] = Ok pixel0
      /\ pixel_data Sample.b2212 Shifted.data pixel0 = Ok data1
      /\ nth_error Shifted.data 0 = Some ch0
      /\ file_cycle_ends Shifted.data
         = Ok (0%nat :: Np.where_ (Z.eqb (-2)) (T0 ch0))
      /\ (valid_timestamps data1 = 0%nat ->
          [mk_row "s.dat" 4 5 2 2 2 (Qmake 200 4)] = [])
      /\ (valid_timestamps data1 <> 0%nat ->
          Forall2
            (fun pixel_j r =>
               exists data2 ct,
                 pixel_data Sample.b2212 Shifted.data pixel_j = Ok data2
                 /\ truediv
                      (List.length
                         (DifferenceEngine.calculate_differences_2212 data1
                            data2 (0%nat :: Np.where_ (Z.eqb (-2)) (T0 ch0))
                            10000) * 100)
                      (valid_timestamps data1 + valid_timestamps data2)
                    = Ok ct
                 /\ r = mk_row "s.dat" pixel0 pixel_j
                          (valid_timestamps data1) (valid_timestamps data2)
                          (List.length
                             (DifferenceEngine.calculate_differences_2212
                                data1 data2
                                (0%nat :: Np.where_ (Z.eqb (-2)) (T0 ch0))
                                10000)) ct)
            (filter (fun p => pixel0 <? p) (tl [4; 5]))
            [mk_row "s.dat" 4 5 2 2 2 (Qmake 200 4)]))
  /\ (exists rows,
        file_rows DifferenceEngine.calculate_differences_2212 "s.dat"
          Sample.b2212 Shifted.data 10000 [4; 5] = Ok rows)
  /\ file_cycle_ends Shifted.data = Ok [0; 1; 5]%nat
  /\ List.length
       (DifferenceEngine.calculate_differences_2212 [100; 200] [150; 260]
          [0; 2; 5]%nat 10000) = 4%nat.
Proof.
  destruct (one_boundary_sequence_for_every_pair
              DifferenceEngine.calculate_differences_2212 "s.dat"
              Sample.b2212 Shifted.data 10000 [4; 5])
    as (_ & Hrows & Htotal).
  split; [|split; [|split]].
  - apply Hrows. vm_compute. reflexivity.
  - apply Htotal.
    + apply grid_check_sound. vm_compute. reflexivity.
    + reflexivity.
    + discriminate 1.
    + repeat constructor; lia.
  - reflexivity.
  - reflexivity.
Defined.

Section WholeRun.

Variable unpack_binary_data :
  string -> pyval -> pyval -> pyval -> Z -> bool -> option bool -> data_all_t.
Variable calculate_differences_2212 :
  list Z -> list Z -> list nat -> Z -> list Z.
Variable path : string.
Variables daughterboard_number motherboard_number firmware_version : pyval.
Variable timestamps : Z.
Variable delta_window : Z.
Variable include_offset apply_calibration : bool.

Abbreviation unpacked file :=
  (unpack_binary_data file daughterboard_number motherboard_number
     firmware_version timestamps include_offset (Some apply_calibration)).

Lemma well_formed_loop (pix_coor : list (list Z)) (pixel0 : Z)
    (others : list Z) (files : list string) (w : world) :
  pix_coor_of firmware_version = Ok pix_coor ->
  Forall (fun p => 0 <= p < 256) (pixel0 :: others) ->
  Forall (fun file => List.length (unpacked file) = 64%nat) files ->
  exists table,
    files_loop unpack_binary_data calculate_differences_2212
      (pixel0 :: others) daughterboard_number motherboard_number
      firmware_version timestamps delta_window include_offset
      apply_calibration files w
    = (Ok table, after (map Unpack files) w)
    /\ (List.length table <= List.length files * List.length others)%nat
    /\ Forall (fun r => In (File r) files /\ Pixel_1 r = pixel0
                        /\ In (Pixel_2 r) others /\ pixel0 < Pixel_2 r) table.
Proof.
  intros Hpc Hpixels Hfiles. revert w.
  induction Hfiles as [|file files Hfile Hfiles IH]; intros w.
  - exists []. cbn. unfold io_ret. rewrite after_nil.
    repeat split; [lia|constructor].
  - rewrite files_loop_cons, Hpc.
    destruct (@file_rows_well_formed calculate_differences_2212
                file pix_coor (unpacked file) delta_window pixel0 others
                (@pix_coor_of_grid _ _ Hpc) Hfile Hpixels)
      as (rows & Hrows & Hlen & Hin).
    rewrite Hrows.
    destruct (IH (after [Unpack file] w)) as (rest & Hrest & Hlen' & Hin').
    rewrite Hrest. exists (rows ++ rest)%list.
    split; [now rewrite after_after|]. split.
    + rewrite length_app. cbn [List.length]. lia.
    + apply Forall_app. split.
      * apply file_rows_inv in Hrows.
        destruct Hrows as (p0 & data1 & ch0 & _ & _ & _ & Hpairs).
        apply pairs_loop_rows in Hpairs.
        rewrite Forall_forall in *. intros r Hr.
        destruct (Hin r Hr) as [H1 H2].
        destruct (Hpairs r Hr) as (Hf & Hp1 & Hlt & _).
        repeat split; try assumption; [left; now rewrite Hf|congruence].
      * eapply Forall_impl; [|exact Hin'].
        cbn beta. intros r (H1 & H2). split; [now right|exact H2].
Qed.

(** A run on well-formed input completes.  With string board numbers, a
    recognized firmware tag, a non-empty list of pixels from 0..255 and
    at least one data file, each unpacked to 64 channel arrays, the run
    returns normally and has saved a table under the name of the file
    set.  The table has at most one row per data file and pixel after
    the first, and every row names a data file of the folder, the first
    pixel of the list and a later pixel of the list above it. *)
Theorem a_well_formed_run_completes (pix_coor : list (list Z)) (pixel0 : Z)
    (others : list Z) (first_file : string) (more_files : list string)
    (w : world) :
  isinstance_str daughterboard_number = true ->
  isinstance_str motherboard_number = true ->
  pix_coor_of firmware_version = Ok pix_coor ->
  Forall (fun p => 0 <= p < 256) (pixel0 :: others) ->
  dat_files w = first_file :: more_files ->
  Forall (fun file => List.length (unpacked file) = 64%nat) (dat_files w) ->
  exists table,
    fst (collect_cross_talk unpack_binary_data calculate_differences_2212
           path (pixel0 :: others) daughterboard_number motherboard_number
           firmware_version timestamps delta_window include_offset
           apply_calibration w) = Ok tt
    /\ artifact (csv_name first_file (List.last more_files first_file))
         (snd (collect_cross_talk unpack_binary_data
                 calculate_differences_2212 path (pixel0 :: others)
                 daughterboard_number motherboard_number firmware_version
                 timestamps delta_window include_offset apply_calibration w))
       = Some table
    /\ (List.length table
        <= List.length (dat_files w) * List.length others)%nat
    /\ Forall (fun r => In (File r) (dat_files w) /\ Pixel_1 r = pixel0
                        /\ In (Pixel_2 r) others /\ pixel0 < Pixel_2 r) table.
Proof.
  intros Hdb Hmb Hpc Hpixels Hfiles Hunpacked.
  destruct (@well_formed_loop pix_coor pixel0 others (dat_files w)
              (after [Chdir path; Glob "*.dat*"] w) Hpc Hpixels Hunpacked)
    as (table & Hloop & Hlen & Hin).
  exists table. rewrite collect_cross_talk_eq by assumption.
  rewrite Hloop. rewrite Hfiles at 1 2. rewrite table_is_written_exactly.
  cbn [fst snd]. split; [reflexivity|]. split; [|split; assumption].
  unfold artifact. cbn [cross_talk_data find fst].
  now rewrite String.eqb_refl.
Qed.

End WholeRun.

(** ** The dark count rate *)

Lemma take_where_from (A : Type) (f g : A -> Z) (test : Z -> bool)
    (pre rows : list A) :
  Np.take (map g (pre ++ rows))
    (Np.where_from test (List.length pre) (map f rows))
  = map g (filter (fun r => test (f r)) rows).
Proof.
  revert pre. induction rows as [|r rows IH]; intros pre; [reflexivity|].
  cbn [map Np.where_from filter].
  assert (Hrest :
    Np.take (map g (pre ++ r :: rows))
      (Np.where_from test (S (List.length pre)) (map f rows))
    = map g (filter (fun r => test (f r)) rows)).
  { specialize (IH (pre ++ [r])%list).
    rewrite <- app_assoc, length_app in IH. cbn [app List.length] in IH.
    now rewrite Nat.add_1_r in IH. }
  destruct (test (f r)); [|exact Hrest].
  unfold Np.take in *. cbn [map]. rewrite Hrest. f_equal.
  rewrite map_app, app_nth2; rewrite length_map; [|lia].
  now rewrite Nat.sub_diag.
Qed.

Lemma where_from_length (A : Type) (test : A -> bool) (start : nat) (a : list A) :
  List.length (Np.where_from test start a) = List.length (filter test a).
Proof.
  revert start. induction a as [|x a IH]; intros start; [reflexivity|].
  cbn [Np.where_from filter]. destruct (test x); cbn [List.length];
    now rewrite IH.
Qed.

(** The number of valid timestamps that the program finds for a pixel is
    the number of rows of its channel that carry its index and a positive
    timestamp. *)
Lemma valid_timestamps_count (ch : channel) (pix_c : Z) :
  valid_timestamps (Np.take (T1 ch) (Np.where_ (Z.eqb pix_c) (T0 ch)))
  = count_in ch pix_c.
Proof.
  unfold T0, T1, Np.where_.
  pose proof (take_where_from fst snd (Z.eqb pix_c) [] ch) as Htake.
  cbn [app List.length] in Htake. rewrite Htake. clear Htake.
  unfold valid_timestamps, Np.where_, count_in. rewrite where_from_length.
  induction ch as [|[p t] ch IH]; [reflexivity|].
  cbn [filter fst snd]. destruct (pix_c =? p); cbn [andb map filter snd].
  - destruct (0 <? t); cbn [List.length]; [f_equal|]; exact IH.
  - exact IH.
Qed.

Lemma pixel_data_count (pix_coor : list (list Z)) (data : data_all_t)
    (p : Z) (timestamps_p : list Z) :
  pixel_data pix_coor data p = Ok timestamps_p ->
  valid_timestamps timestamps_p = count_at data (coordinates pix_coor p).
Proof.
  unfold pixel_data, pixel_rows, Np.item, coordinates, count_at.
  cbn [bind Monad_result].
  destruct (pixel_coordinates pix_coor p) as [[tdc pix_c]|];
    cbn [result_bind fst snd]; [|discriminate 1].
  destruct (nth_error data tdc) as [ch|]; cbn [result_bind ret Monad_result];
    [|discriminate 1].
  intros H. injection H as <-. apply valid_timestamps_count.
Qed.

Lemma count_valid_defined (pix_coor : list (list Z)) (data : data_all_t)
    (pixels : list Z) :
  maps_onto_grid pix_coor 64 4 ->
  List.length data = 64%nat ->
  Forall (fun p => 0 <= p < 256) pixels ->
  count_valid pix_coor data pixels
  = Ok (map (fun p => count_at data (coordinates pix_coor p)) pixels).
Proof.
  intros Hgrid Hlen Hall.
  induction Hall as [|p pixels Hp Hall IH]; [reflexivity|].
  cbn [count_valid map].
  destruct (@pixel_data_defined pix_coor data p Hgrid Hlen Hp) as [d Hd].
  rewrite Hd, IH. cbn [bind Monad_result result_bind ret].
  now rewrite (pixel_data_count _ _ _ Hd).
Qed.

Lemma arange_In (n : nat) (p : Z) :
  In p (Np.arange n) <-> 0 <= p < Z.of_nat n.
Proof.
  unfold Np.arange. rewrite in_map_iff. split.
  - intros [k [<- Hk]]. apply in_seq in Hk. lia.
  - intros Hp. exists (Z.to_nat p). rewrite in_seq. lia.
Qed.

Lemma arange_NoDup (n : nat) : NoDup (Np.arange n).
Proof.
  unfold Np.arange. apply NoDup_map_NoDup_ForallPairs; [|apply seq_NoDup].
  intros x y _ _ H. lia.
Qed.

Lemma coordinates_of_pixel (pix_coor : list (list Z)) (p : Z) :
  maps_onto_grid pix_coor 64 4 ->
  0 <= p < 256 ->
  pixel_coordinates pix_coor p = Ok (coordinates pix_coor p)
  /\ (fst (coordinates pix_coor p) < 64)%nat
  /\ (snd (coordinates pix_coor p) < 4)%nat.
Proof.
  intros (Hfwd & _) Hp. destruct (Hfwd p Hp) as (tdc & pix_c & Hc & H1 & H2).
  unfold coordinates. rewrite Hc. now repeat split.
Qed.

(** Going through the pixels 0..255 is going through the 64 times 4
    cells of the grid, each cell once. *)
Lemma coordinates_permutation (pix_coor : list (list Z)) :
  maps_onto_grid pix_coor 64 4 ->
  Permutation (map (coordinates pix_coor) (Np.arange 256))
    (list_prod (seq 0 64) (seq 0 4)).
Proof.
  intros Hgrid. apply NoDup_Permutation_bis.
  - apply NoDup_map_NoDup_ForallPairs; [|apply arange_NoDup].
    intros p q Hp Hq Heq. apply arange_In in Hp, Hq.
    destruct (coordinates_of_pixel Hgrid Hp) as [Hcp _].
    destruct (coordinates_of_pixel Hgrid Hq) as [Hcq _].
    destruct Hgrid as (_ & Hinj & _). rewrite Heq in Hcp.
    exact (Hinj p q _ Hcp Hcq).
  - vm_compute. apply Nat.le_refl.
  - intros [tdc pix_c] Hin. apply in_map_iff in Hin.
    destruct Hin as [p [Heq Hp]]. apply arange_In in Hp.
    destruct (coordinates_of_pixel Hgrid Hp) as (_ & H1 & H2).
    rewrite Heq in H1, H2. cbn [fst snd] in H1, H2.
    apply in_prod_iff. rewrite !in_seq. lia.
Qed.

Lemma four_pixels (ch : channel) :
  (count_in ch 0 + count_in ch 1 + count_in ch 2 + count_in ch 3)%nat
  = valid_rows ch.
Proof.
  unfold count_in, valid_rows. induction ch as [|[p t] ch IH]; [reflexivity|].
  cbn [filter fst snd].
  destruct (0 <? t); cbn [andb];
    destruct (Z.eqb_spec 0 p), (Z.eqb_spec 1 p), (Z.eqb_spec 2 p),
      (Z.eqb_spec 3 p), (Z.leb_spec 0 p), (Z.ltb_spec p 4);
    cbn [andb List.length]; lia.
Qed.

Lemma count_at_grid (pre rest : data_all_t) :
  list_sum
    (map (count_at (pre ++ rest)%list)
       (list_prod (seq (List.length pre) (List.length rest)) (seq 0 4)))
  = valid_records rest.
Proof.
  revert pre. induction rest as [|ch rest IH]; intros pre; [reflexivity|].
  cbn [List.length seq list_prod]. rewrite map_app, list_sum_app.
  change (valid_records (ch :: rest))
    with (valid_rows ch + valid_records rest)%nat.
  f_equal.
  - cbn [seq map list_sum]. unfold count_at. cbn [fst snd].
    rewrite nth_error_app2, Nat.sub_diag by lia. cbn [nth_error].
    rewrite <- four_pixels. cbn [Z.of_nat Pos.of_succ_nat Pos.succ].
    unfold list_sum. cbn [fold_right]. lia.
  - specialize (IH (pre ++ [ch])%list).
    rewrite <- app_assoc, length_app in IH. cbn [app List.length] in IH.
    rewrite Nat.add_1_r in IH. exact IH.
Qed.

Lemma counts_of_a_file (pix_coor : list (list Z)) (data : data_all_t) :
  maps_onto_grid pix_coor 64 4 ->
  List.length data = 64%nat ->
  List.length
    (map (fun p => count_at data (coordinates pix_coor p)) (Np.arange 256))
  = 256%nat
  /\ list_sum
       (map (fun p => count_at data (coordinates pix_coor p)) (Np.arange 256))
     = valid_records data.
Proof.
  intros Hgrid Hlen. split; [now rewrite length_map|].
  rewrite <- (map_map (coordinates pix_coor) (count_at data)).
  rewrite (Permutation_list_sum
             (Permutation_map (count_at data)
                (coordinates_permutation Hgrid))).
  pose proof (count_at_grid [] data) as H.
  cbn [app List.length] in H. now rewrite Hlen in H.
Qed.

(** The pass over the 256 pixels counts every valid record of the file,
    and counts it once: under a recognized firmware tag and with 64
    channel arrays it yields 256 counts whose sum is the number of rows
    that carry a pixel index from 0 to 3 and a positive timestamp.
    Invalid records and end-of-cycle rows are not counted. *)
Theorem every_valid_record_is_counted_once (firmware_version : pyval)
    (pix_coor : list (list Z)) (data : data_all_t) :
  pix_coor_of firmware_version = Ok pix_coor ->
  List.length data = 64%nat ->
  exists counts,
    count_valid pix_coor data (Np.arange 256) = Ok counts
    /\ List.length counts = 256%nat
    /\ list_sum counts = valid_records data.
Proof.
  intros Hpc Hlen. pose proof (@pix_coor_of_grid _ _ Hpc) as Hgrid.
  eexists. split.
  - apply count_valid_defined; [exact Hgrid|exact Hlen|].
    apply Forall_forall. intros p Hp. now apply arange_In in Hp.
  - now apply counts_of_a_file.
Qed.

Lemma add_counts_length (v c : list nat) :
  List.length v = List.length c ->
  List.length (add_counts v c) = List.length v.
Proof.
  intros H. unfold add_counts. rewrite length_map, length_combine. lia.
Qed.

Lemma add_counts_sum (v c : list nat) :
  List.length v = List.length c ->
  list_sum (add_counts v c) = (list_sum v + list_sum c)%nat.
Proof.
  unfold add_counts. revert c.
  induction v as [|x v IH]; intros [|y c] H; try discriminate H; [reflexivity|].
  assert (Hcons : forall a l, list_sum (a :: l) = (a + list_sum l)%nat)
    by reflexivity.
  cbn [combine map fst snd]. injection H as H.
  rewrite !Hcons, (IH c H). lia.
Qed.

Lemma add_counts_swap (v a b : list nat) :
  add_counts (add_counts v a) b = add_counts (add_counts v b) a.
Proof.
  unfold add_counts. revert a b.
  induction v as [|x v IH]; intros [|y a] [|z b];
    cbn [combine map fst snd]; try reflexivity.
  rewrite IH. f_equal. lia.
Qed.

Lemma fold_counts (cs : list (list nat)) (v : list nat) :
  Forall (fun c => List.length c = 256%nat) cs ->
  List.length v = 256%nat ->
  List.length (fold_left add_counts cs v) = 256%nat
  /\ list_sum (fold_left add_counts cs v)
     = (list_sum v + list_sum (map list_sum cs))%nat.
Proof.
  intros Hcs. revert v. induction Hcs as [|c cs Hc Hcs IH]; intros v Hv.
  - cbn [fold_left map]. split; [exact Hv|].
    change (list_sum (@nil nat)) with 0%nat. lia.
  - cbn [fold_left map].
    destruct (IH (add_counts v c)) as [H1 H2].
    { rewrite add_counts_length; congruence. }
    split; [exact H1|]. rewrite H2, add_counts_sum by congruence.
    change (list_sum (list_sum c :: map list_sum cs))
      with (list_sum c + list_sum (map list_sum cs))%nat.
    lia.
Qed.

Lemma fold_counts_permutation (cs cs' : list (list nat)) :
  Permutation cs cs' ->
  forall v, fold_left add_counts cs v = fold_left add_counts cs' v.
Proof.
  induction 1 as [|c cs cs' _ IH|a b cs|cs1 cs2 cs3 _ IH1 _ IH2]; intros v.
  - reflexivity.
  - cbn [fold_left]. apply IH.
  - cbn [fold_left]. now rewrite add_counts_swap.
  - now rewrite IH1.
Qed.

Lemma clear_masked_spec (mask : list nat) (v : list nat) (start : nat) :
  map (fun iv => if existsb (Nat.eqb (fst iv)) mask then 0%nat else snd iv)
    (combine (seq start (List.length v)) v)
  = map (fun i => if existsb (Nat.eqb i) mask then 0%nat
                  else nth (i - start) v 0%nat)
      (seq start (List.length v)).
Proof.
  revert start. induction v as [|x v IH]; intros start; [reflexivity|].
  cbn [List.length seq combine map fst snd]. rewrite Nat.sub_diag. f_equal.
  rewrite IH. apply map_ext_in. intros i Hi. apply in_seq in Hi.
  replace (i - start)%nat with (S (i - S start)) by lia. reflexivity.
Qed.

(** The assignment through the mask, when every index of the mask lies
    inside the array and when one does not. *)
Lemma clear_masked_inside (mask : list nat) (v : list nat) :
  Forall (fun i => (i < List.length v)%nat) mask ->
  clear_masked mask v
  = Ok (map (fun i => if existsb (Nat.eqb i) mask then 0%nat
                      else nth i v 0%nat)
          (seq 0 (List.length v))).
Proof.
  intros Hmask. unfold clear_masked.
  assert (Hall : forallb (fun i => (i <? List.length v)%nat) mask = true).
  { apply forallb_forall. rewrite Forall_forall in Hmask.
    intros i Hi. apply Nat.ltb_lt. now apply Hmask. }
  rewrite Hall, clear_masked_spec. f_equal.
  apply map_ext. intros i. now rewrite Nat.sub_0_r.
Qed.

Lemma clear_masked_outside (mask : list nat) (v : list nat) :
  ~ Forall (fun i => (i < List.length v)%nat) mask ->
  clear_masked mask v = Raise IndexError.
Proof.
  intros Hmask. unfold clear_masked.
  destruct (forallb (fun i => (i <? List.length v)%nat) mask) eqn:Hall;
    [|reflexivity].
  exfalso. apply Hmask. apply Forall_forall. intros i Hi.
  rewrite forallb_forall in Hall. apply Nat.ltb_lt. now apply Hall.
Qed.

Lemma add_counts_map (a b : nat -> nat) (l : list nat) :
  add_counts (map a l) (map b l) = map (fun i => (a i + b i)%nat) l.
Proof.
  unfold add_counts. induction l as [|i l IH]; [reflexivity|].
  cbn [map combine fst snd]. now rewrite IH.
Qed.

(** Adding the counts of the files one after the other gives, for each
    pixel, the sum of its counts over the files. *)
Lemma fold_counts_map (A : Type) (h : A -> nat -> nat) (files : list A)
    (a : nat -> nat) (l : list nat) :
  fold_left add_counts (map (fun file => map (h file) l) files) (map a l)
  = map (fun i => (a i + list_sum (map (fun file => h file i) files))%nat) l.
Proof.
  revert a. induction files as [|file files IH]; intros a.
  - cbn [fold_left map]. apply map_ext. intros i.
    change (list_sum (@nil nat)) with 0%nat. lia.
  - cbn [fold_left map]. rewrite add_counts_map, IH.
    apply map_ext. intros i.
    change (list_sum (h file i :: map (fun f => h f i) files))
      with (h file i + list_sum (map (fun f => h f i) files))%nat.
    lia.
Qed.

Section DarkCountRateRun.

Variable unpack_binary_data :
  string -> pyval -> pyval -> pyval -> Z -> bool -> option bool -> data_all_t.
Variable apply_mask : pyval -> pyval -> list nat.
Variable path : string.
Variables daughterboard_number motherboard_number firmware_version : pyval.
Variable timestamps : Z.

Abbreviation the_dcr :=
  (calculate_dark_count_rate unpack_binary_data apply_mask path
     daughterboard_number motherboard_number firmware_version timestamps).
Abbreviation the_dcr_loop :=
  (dcr_loop unpack_binary_data daughterboard_number motherboard_number
     firmware_version timestamps).
Abbreviation raw file :=
  (unpack_binary_data file daughterboard_number motherboard_number
     firmware_version timestamps false None).

(** One pass of the file loop. *)
Lemma dcr_loop_cons (file : string) (files : list string) (v : list nat)
    (w : world) :
  the_dcr_loop (file :: files) v w =
  match pix_coor_of firmware_version with
  | Raise e => (Raise e, w)
  | Ok pix_coor =>
      match count_valid pix_coor (raw file) (Np.arange 256) with
      | Raise e => (Raise e, after [Unpack file] w)
      | Ok counts =>
          the_dcr_loop files (add_counts v counts) (after [Unpack file] w)
      end
  end.
Proof.
  cbn [dcr_loop bind Monad_io]. unfold io_bind at 1. unfold pure at 1.
  destruct (pix_coor_of firmware_version) as [pix_coor|]; [|reflexivity].
  unfold io_bind at 1. unfold unpack at 1. cbn [bind Monad_io ret].
  unfold io_bind at 1. unfold log at 1, modify at 1, io_ret at 1.
  fold (after [Unpack file] w).
  unfold io_bind at 1. unfold pure at 1.
  destruct (count_valid pix_coor (raw file) (Np.arange 256)); reflexivity.
Qed.

(** [calculate_dark_count_rate] once its three parameters have passed
    the type check. *)
Lemma calculate_dark_count_rate_eq (w : world) :
  isinstance_str firmware_version = true ->
  isinstance_str daughterboard_number = true ->
  isinstance_str motherboard_number = true ->
  the_dcr w =
  match
    the_dcr_loop (dat_files w) (repeat 0%nat 256)
      (after [Chdir path; Glob "*.dat*"] w)
  with
  | (Raise e, w') => (Raise e, w')
  | (Ok valid_per_pixel, w') =>
      match
        clear_masked (apply_mask daughterboard_number motherboard_number)
          valid_per_pixel
      with
      | Raise e => (Raise e, after [ReadMask] w')
      | Ok cleared =>
          (Ok (average_per_file cleared (List.length (dat_files w))),
           after [ReadMask] w')
      end
  end.
Proof.
  intros Hfw Hdb Hmb. unfold calculate_dark_count_rate.
  rewrite Hfw, Hdb, Hmb.
  cbn [negb bind Monad_io]. unfold io_bind at 1.
  unfold chdir at 1, log at 1, modify at 1.
  unfold io_bind at 1. unfold glob_dat at 1. cbn [bind Monad_io ret].
  unfold io_bind at 1. unfold log at 1, modify at 1.
  unfold io_bind at 1. unfold get at 1. unfold io_ret at 1.
  cbn [dat_files cross_talk_data events].
  rewrite <- app_assoc. cbn [app]. fold (after [Chdir path; Glob "*.dat*"] w).
  unfold io_bind at 1.
  destruct (dcr_loop _ _ _ _ _ (dat_files w) _ _) as [[v|e] w'];
    [|reflexivity].
  unfold io_bind at 1. unfold log at 1, modify at 1.
  fold (after [ReadMask] w'). unfold io_bind at 1. unfold pure at 1.
  destruct (clear_masked _ v); reflexivity.
Qed.

(** In a folder without data files [calculate_dark_count_rate] raises no
    error of its own: it reads the mask and returns [nan], the quotient
    of a zero average by zero files, under any firmware tag.  Only a mask
    that names a pixel beyond the 256 of the array stops it, with
    [IndexError] at the assignment through the mask. *)
Theorem dark_count_rate_of_an_empty_folder (w : world) :
  isinstance_str firmware_version = true ->
  isinstance_str daughterboard_number = true ->
  isinstance_str motherboard_number = true ->
  dat_files w = [] ->
  the_dcr w
  = (if forallb (fun i => (i <? 256)%nat)
          (apply_mask daughterboard_number motherboard_number)
     then Ok NaN
     else Raise IndexError,
     after [Chdir path; Glob "*.dat*"; ReadMask] w).
Proof.
  intros Hfw Hdb Hmb Hfiles.
  rewrite calculate_dark_count_rate_eq by assumption. rewrite Hfiles.
  cbn [dcr_loop ret Monad_io]. unfold io_ret. rewrite after_after.
  unfold clear_masked. rewrite repeat_length.
  destruct (forallb (fun i => (i <? 256)%nat)
              (apply_mask daughterboard_number motherboard_number));
    reflexivity.
Qed.

(** The counts of one file, pixel by pixel. *)
Lemma dcr_loop_well_formed (pix_coor : list (list Z)) (files : list string)
    (v : list nat) (w : world) :
  pix_coor_of firmware_version = Ok pix_coor ->
  Forall (fun file => List.length (raw file) = 64%nat) files ->
  the_dcr_loop files v w
  = (Ok (fold_left add_counts
           (map (fun file =>
                   map (fun p => count_at (raw file) (coordinates pix_coor p))
                     (Np.arange 256)) files) v),
     after (map Unpack files) w).
Proof.
  intros Hpc Hfiles. revert v w.
  induction Hfiles as [|file files Hfile Hfiles IH]; intros v w.
  - cbn. unfold io_ret. now rewrite after_nil.
  - rewrite dcr_loop_cons, Hpc.
    rewrite count_valid_defined;
      [|eapply pix_coor_of_grid, Hpc|exact Hfile
       |apply Forall_forall; intros p Hp; now apply arange_In in Hp].
    rewrite IH, after_after. reflexivity.
Qed.

Lemma repeat_as_map (n : nat) :
  repeat 0%nat n = map (fun _ => 0%nat) (seq 0 n).
Proof.
  rewrite <- (length_seq n 0) at 1.
  induction (seq 0 n) as [|i l IH]; [reflexivity|].
  cbn [List.length repeat map]. now rewrite IH.
Qed.

(** The counts after the file loop, pixel by pixel. *)
Lemma dcr_loop_counts (pix_coor : list (list Z)) (files : list string)
    (w : world) :
  pix_coor_of firmware_version = Ok pix_coor ->
  Forall (fun file => List.length (raw file) = 64%nat) files ->
  the_dcr_loop files (repeat 0%nat 256) w
  = (Ok (map (valid_of_pixel pix_coor (fun file => raw file) files)
           (seq 0 256)),
     after (map Unpack files) w).
Proof.
  intros Hpc Hraw. rewrite (dcr_loop_well_formed _ _ Hpc Hraw).
  f_equal. f_equal. unfold Np.arange.
  rewrite repeat_as_map.
  rewrite (map_ext
             (fun file =>
                map (fun p => count_at (raw file) (coordinates pix_coor p))
                  (map Z.of_nat (seq 0 256)))
             (fun file =>
                map (fun i =>
                       count_at (raw file)
                         (coordinates pix_coor (Z.of_nat i)))
                  (seq 0 256)))
    by (intros file; apply map_map).
  rewrite (fold_counts_map
             (fun file i =>
                count_at (raw file) (coordinates pix_coor (Z.of_nat i)))).
  apply map_ext. intros i. reflexivity.
Qed.

(** On well-formed input [calculate_dark_count_rate] returns a number.
    With three string parameters, a recognized firmware tag, a mask of
    pixels below 256 and at least one data file, each unpacked to 64
    channel arrays, it unpacks every file once, reads the mask and
    returns this: the valid timestamps of the pixels that are not masked,
    added up over the pixels and the files, divided by 256 and by the
    number of files. *)
Theorem dark_count_rate_completes (pix_coor : list (list Z))
    (first_file : string) (more_files : list string) (w : world) :
  isinstance_str firmware_version = true ->
  isinstance_str daughterboard_number = true ->
  isinstance_str motherboard_number = true ->
  pix_coor_of firmware_version = Ok pix_coor ->
  Forall (fun i => (i < 256)%nat)
    (apply_mask daughterboard_number motherboard_number) ->
  dat_files w = first_file :: more_files ->
  Forall (fun file => List.length (raw file) = 64%nat) (dat_files w) ->
  the_dcr w
  = (Ok (Dcr (Qmake
                (Z.of_nat
                   (unmasked_total pix_coor (fun file => raw file)
                      (dat_files w)
                      (apply_mask daughterboard_number motherboard_number)))
                (Pos.of_nat (256 * List.length (dat_files w))))),
     after ([Chdir path; Glob "*.dat*"] ++ map Unpack (dat_files w)
            ++ [ReadMask]) w).
Proof.
  intros Hfw Hdb Hmb Hpc Hmask Hfiles Hraw.
  rewrite calculate_dark_count_rate_eq by assumption.
  rewrite (dcr_loop_counts _ Hpc Hraw).
  rewrite clear_masked_inside
    by (rewrite length_map, length_seq; exact Hmask).
  rewrite !after_after. f_equal. f_equal.
  rewrite length_map, length_seq.
  unfold average_per_file, unmasked_total. rewrite Hfiles.
  cbn [List.length]. rewrite length_map, length_seq.
  match goal with
  | |- Dcr (Qmake (Z.of_nat (list_sum ?a)) _)
       = Dcr (Qmake (Z.of_nat (list_sum ?b)) _) =>
      assert (a = b) as ->; [|reflexivity]
  end.
  apply map_ext_in. intros i Hi. apply in_seq in Hi.
  destruct (existsb (Nat.eqb i) _); [reflexivity|].
  rewrite (nth_indep _ 0%nat
             (valid_of_pixel pix_coor (fun file => raw file)
                (first_file :: more_files) 0%nat))
    by (rewrite length_map, length_seq; lia).
  rewrite map_nth, seq_nth by lia. reflexivity.
Qed.

(** The rate does not depend on the order in which the data files are
    listed: two folders whose well-formed files are the same up to order
    give the same result. *)
Theorem dark_count_rate_ignores_the_order_of_the_files
    (pix_coor : list (list Z)) (w w' : world) :
  isinstance_str firmware_version = true ->
  isinstance_str daughterboard_number = true ->
  isinstance_str motherboard_number = true ->
  pix_coor_of firmware_version = Ok pix_coor ->
  Forall (fun file => List.length (raw file) = 64%nat) (dat_files w) ->
  Permutation (dat_files w) (dat_files w') ->
  fst (the_dcr w) = fst (the_dcr w').
Proof.
  intros Hfw Hdb Hmb Hpc Hraw Hperm.
  assert (Hraw' : Forall (fun file => List.length (raw file) = 64%nat)
                    (dat_files w'))
    by (eapply Permutation_Forall; eassumption).
  rewrite !calculate_dark_count_rate_eq by assumption.
  rewrite (dcr_loop_well_formed _ _ Hpc Hraw),
    (dcr_loop_well_formed _ _ Hpc Hraw').
  rewrite (Permutation_length Hperm).
  rewrite (fold_counts_permutation (Permutation_map _ Hperm)).
  destruct (clear_masked _ _); reflexivity.
Qed.

End DarkCountRateRun.

Section FirmwareType.

Variable unpack_binary_data :
  string -> pyval -> pyval -> pyval -> Z -> bool -> option bool -> data_all_t.
Variable calculate_differences_2212 :
  list Z -> list Z -> list nat -> Z -> list Z.
Variable apply_mask : pyval -> pyval -> list nat.
Variable path : string.
Variable pixels : list Z.
Variables daughterboard_number motherboard_number firmware_version : pyval.
Variable timestamps : Z.
Variable delta_window : Z.
Variable include_offset apply_calibration : bool.

(** The type of the firmware tag is checked by
    [calculate_dark_count_rate] only.  Given a tag that is not a string,
    it raises [TypeError] before it touches the folder, whatever the
    board numbers are.  [collect_cross_talk] has no such check: with
    string board numbers and a data file in the folder it enters and
    lists the folder and then leaves through [sys.exit()]. *)
Theorem only_the_dark_count_rate_checks_the_type_of_the_tag
    (w : world) (file : string) (files : list string) :
  isinstance_str firmware_version = false ->
  calculate_dark_count_rate unpack_binary_data apply_mask path
    daughterboard_number motherboard_number firmware_version timestamps w
  = (Raise TypeError, w)
  /\ (isinstance_str daughterboard_number = true ->
      isinstance_str motherboard_number = true ->
      dat_files w = file :: files ->
      collect_cross_talk unpack_binary_data calculate_differences_2212
        path pixels daughterboard_number motherboard_number firmware_version
        timestamps delta_window include_offset apply_calibration w
      = (Raise SystemExit, after [Chdir path; Glob "*.dat*"] w)).
Proof.
  intros Hfw. split.
  - unfold calculate_dark_count_rate. rewrite Hfw. reflexivity.
  - intros Hdb Hmb Hfiles. rewrite collect_cross_talk_eq by assumption.
    rewrite Hfiles, files_loop_cons.
    assert (Hpc : pix_coor_of firmware_version = Raise SystemExit).
    { unfold pix_coor_of, py_eq_str.
      destruct firmware_version; [discriminate Hfw|reflexivity|reflexivity]. }
    now rewrite Hpc.
Qed.

End FirmwareType.

(** ** The points of the cross-talk plot *)

Lemma unique_from_In (seen values : list Z) (x : Z) :
  In x (Plot.unique_from seen values) <-> In x values /\ ~ In x seen.
Proof.
  revert seen. induction values as [|v values IH]; intros seen;
    cbn [Plot.unique_from]; [cbn; tauto|].
  destruct (existsb (Z.eqb v) seen) eqn:Hseen.
  - apply existsb_exists in Hseen. destruct Hseen as [y [Hy Heq]].
    apply Z.eqb_eq in Heq. subst y. rewrite IH. cbn [In].
    split; [tauto|]. intros [[-> | Hin] Hn]; tauto.
  - assert (Hv : ~ In v seen).
    { intros Hin. assert (existsb (Z.eqb v) seen = true); [|congruence].
      apply existsb_exists. exists v. split; [exact Hin|apply Z.eqb_refl]. }
    cbn [In]. rewrite IH. cbn [In].
    destruct (Z.eq_dec v x) as [->|Hne]; [tauto|]. tauto.
Qed.

Lemma unique_from_NoDup (seen values : list Z) :
  NoDup (Plot.unique_from seen values).
Proof.
  revert seen. induction values as [|v values IH]; intros seen;
    cbn [Plot.unique_from]; [constructor|].
  destruct (existsb (Z.eqb v) seen); [apply IH|].
  constructor; [|apply IH]. rewrite unique_from_In. cbn [In]. tauto.
Qed.

Lemma insert_In (x y : Z) (l : list Z) :
  In y (Plot.insert x l) <-> y = x \/ In y l.
Proof.
  induction l as [|z l IH]; cbn [Plot.insert In]; [intuition congruence|].
  destruct (x <=? z); cbn [In]; [intuition congruence|].
  rewrite IH. intuition congruence.
Qed.

Lemma sort_In (y : Z) (l : list Z) : In y (Plot.sort l) <-> In y l.
Proof.
  induction l as [|x l IH]; cbn [Plot.sort In]; [tauto|].
  rewrite insert_In, IH. intuition congruence.
Qed.

Lemma insert_sorted (x : Z) (l : list Z) :
  StronglySorted Z.le l -> StronglySorted Z.le (Plot.insert x l).
Proof.
  induction 1 as [|z l Hs IH Hall]; cbn [Plot.insert];
    [repeat constructor|].
  destruct (Z.leb_spec x z).
  - constructor; [now constructor|]. constructor; [exact H|].
    eapply Forall_impl; [|exact Hall]. intros; lia.
  - constructor; [exact IH|]. apply Forall_forall. intros y Hy.
    apply insert_In in Hy. destruct Hy as [->|Hy]; [lia|].
    rewrite Forall_forall in Hall. now apply Hall.
Qed.

Lemma sort_sorted (l : list Z) : StronglySorted Z.le (Plot.sort l).
Proof.
  induction l as [|x l IH]; cbn [Plot.sort]; [constructor|].
  now apply insert_sorted.
Qed.

Lemma insert_NoDup (x : Z) (l : list Z) :
  ~ In x l -> NoDup l -> NoDup (Plot.insert x l).
Proof.
  intros Hx Hl. induction Hl as [|z l Hz Hl IH]; cbn [Plot.insert];
    [repeat constructor; tauto|].
  destruct (x <=? z).
  - constructor; [exact Hx|now constructor].
  - constructor.
    + rewrite insert_In. cbn [In] in Hx. intuition congruence.
    + apply IH. cbn [In] in Hx. tauto.
Qed.

Lemma sort_NoDup (l : list Z) : NoDup l -> NoDup (Plot.sort l).
Proof.
  induction 1 as [|x l Hx Hl IH]; cbn [Plot.sort]; [constructor|].
  apply insert_NoDup; [now rewrite sort_In|exact IH].
Qed.

Lemma sorted_NoDup_strict (l : list Z) :
  StronglySorted Z.le l -> NoDup l -> StronglySorted Z.lt l.
Proof.
  induction 1 as [|x l Hs IH Hall]; intros Hnd; [constructor|].
  inversion Hnd as [|? ? Hx Hl]; subst. constructor; [now apply IH|].
  rewrite Forall_forall in *. intros y Hy. specialize (Hall y Hy).
  assert (x <> y) by (intros ->; contradiction). lia.
Qed.

Lemma filter_sorted (A : Type) (R : A -> A -> Prop) (test : A -> bool)
    (l : list A) :
  StronglySorted R l -> StronglySorted R (filter test l).
Proof.
  induction 1 as [|x l Hs IH Hall]; cbn [filter]; [constructor|].
  destruct (test x); [|exact IH]. constructor; [exact IH|].
  rewrite Forall_forall in *. intros y Hy. apply filter_In in Hy.
  now apply Hall.
Qed.

Section PlotFacts.

Variable sem : list Q -> Q.
Variable linspace_int : Z -> Z -> nat -> list Z.
Variable data : list row.
Variable pix1 : Z.

Abbreviation the_step := (Plot.step sem linspace_int data pix1).
Abbreviation the_plot := (Plot.plot_loop sem linspace_int data pix1).
Abbreviation has_rows := (Plot.has_rows data pix1).
Abbreviation is_averaged := Plot.is_averaged.
Abbreviation single_value := Plot.single_value.

Lemma step_without_rows (st : Plot.plot_state) (pix : Z) :
  has_rows pix = false -> the_step st pix = st.
Proof.
  unfold Plot.has_rows, Plot.step.
  destruct (Plot.ct_pix data pix1 pix); [reflexivity|discriminate 1].
Qed.

Lemma step_with_rows (st : Plot.plot_state) (pix : Z) :
  has_rows pix = true ->
  Plot.distance (the_step st pix) = (Plot.distance st ++ [pix - pix1])%list
  /\ Plot.xticks (the_step st pix) <> None
  /\ exists e,
       Plot.ct (the_step st pix) = (Plot.ct st ++ [e])%list
       /\ single_value e
       /\ Plot.yerr (the_step st pix)
          = (Plot.yerr st
             ++ if is_averaged e then [sem (Plot.ct_pix data pix1 pix)]
                else [])%list.
Proof.
  unfold Plot.has_rows, Plot.step.
  destruct (Plot.ct_pix data pix1 pix) as [|q qs]; [discriminate 1|].
  intros _. destruct (1 <? List.length (q :: qs))%nat eqn:Hlen;
    cbn [Plot.distance Plot.ct Plot.yerr Plot.xticks];
    (split; [reflexivity|]); (split; [discriminate 1|]);
    eexists; (split; [reflexivity|]); cbn [Plot.is_averaged Plot.single_value];
    rewrite ?app_nil_r; (split; [|reflexivity]); [exact I|].
  apply Nat.ltb_ge in Hlen. cbn [List.length] in *. lia.
Qed.

Lemma plot_fold (pixels : list Z) (st : Plot.plot_state) :
  Plot.distance (fold_left the_step pixels st)
  = (Plot.distance st
     ++ map (fun p => p - pix1) (filter has_rows pixels))%list
  /\ (List.length (Plot.ct st) = List.length (Plot.distance st) ->
      List.length (Plot.ct (fold_left the_step pixels st))
      = List.length (Plot.distance (fold_left the_step pixels st)))
  /\ (List.length (Plot.yerr st)
      = List.length (filter is_averaged (Plot.ct st)) ->
      List.length (Plot.yerr (fold_left the_step pixels st))
      = List.length
          (filter is_averaged (Plot.ct (fold_left the_step pixels st))))
  /\ (Forall single_value (Plot.ct st) ->
      Forall single_value (Plot.ct (fold_left the_step pixels st)))
  /\ (Plot.xticks (fold_left the_step pixels st) = None
      <-> Plot.xticks st = None /\ filter has_rows pixels = []).
Proof.
  revert st. induction pixels as [|pix pixels IH]; intros st.
  - cbn [fold_left filter map]. rewrite app_nil_r. tauto.
  - cbn [fold_left filter].
    destruct (IH (the_step st pix)) as (H1 & H2 & H3 & H4 & H5).
    destruct (has_rows pix) eqn:Hrows.
    + destruct (step_with_rows st pix Hrows)
        as (Hd & Hx & e & Hct & Hone & Hyerr).
      rewrite Hd, Hct, Hyerr in *. cbn [map].
      split; [rewrite H1, <- app_assoc; reflexivity|].
      split; [intros H; apply H2; rewrite !length_app; cbn; lia|].
      split.
      { intros H. apply H3. rewrite filter_app, !length_app. cbn [filter].
        destruct (is_averaged e); cbn [List.length]; lia. }
      split; [intros H; apply H4, Forall_app; split;
              [exact H|now repeat constructor]|].
      split; [intros H; apply H5 in H; destruct H; contradiction|].
      intros [_ H]; discriminate H.
    + rewrite (step_without_rows st pix Hrows) in *.
      repeat split; try tauto; apply H5.
Qed.

(** After every pass [xticks] is unbound or holds the ticks of the
    distances appended so far. *)
Lemma plot_ticks (pixels : list Z) (st : Plot.plot_state) :
  Plot.xticks st
  = match Plot.distance st with
    | [] => None
    | d :: _ =>
        Some (linspace_int d (List.last (Plot.distance st) 0)
                (List.length (Plot.distance st) / 10))
    end ->
  Plot.xticks (fold_left the_step pixels st)
  = match Plot.distance (fold_left the_step pixels st) with
    | [] => None
    | d :: _ =>
        Some (linspace_int d
                (List.last (Plot.distance (fold_left the_step pixels st)) 0)
                (List.length (Plot.distance (fold_left the_step pixels st))
                 / 10))
    end.
Proof.
  revert st. induction pixels as [|pix pixels IH]; intros st Hst;
    cbn [fold_left]; [exact Hst|].
  apply IH. unfold Plot.step.
  destruct (Plot.ct_pix data pix1 pix) as [|q qs]; [exact Hst|].
  destruct (1 <? List.length (q :: qs))%nat;
    cbn [Plot.distance Plot.xticks];
    destruct (Plot.distance st); reflexivity.
Qed.

Lemma has_rows_iff (pix : Z) :
  has_rows pix = true
  <-> exists r, In r data /\ Pixel_1 r = pix1 /\ Pixel_2 r = pix.
Proof.
  unfold Plot.has_rows, Plot.ct_pix, Plot.data_cut. split.
  - destruct (filter _ (filter _ data)) as [|r rs] eqn:Hf; [discriminate 1|].
    intros _. assert (Hin : In r (r :: rs)) by now left.
    rewrite <- Hf in Hin. apply filter_In in Hin. destruct Hin as [Hin H2].
    apply filter_In in Hin. destruct Hin as [Hin H1].
    exists r. rewrite Z.eqb_eq in H1, H2. auto.
  - intros (r & Hin & H1 & H2).
    assert (Hr : In r (filter (fun r => Pixel_2 r =? pix)
                         (filter (fun r => Pixel_1 r =? pix1) data))).
    { apply filter_In. split; [apply filter_In; split|];
        [exact Hin|now apply Z.eqb_eq|now apply Z.eqb_eq]. }
    destruct (filter _ (filter _ data)); [destruct Hr|reflexivity].
Qed.

Lemma pix2_In (pix : Z) :
  In pix (Plot.pix2 data pix1)
  <-> pix1 < pix /\ exists r, In r data /\ Pixel_2 r = pix.
Proof.
  unfold Plot.pix2, Plot.unique.
  rewrite sort_In, filter_In, unique_from_In, in_map_iff, negb_true_iff,
    Z.leb_gt. cbn [In].
  split.
  - intros [[[r [H1 H2]] _] Hlt]. split; [exact Hlt|]. now exists r.
  - intros [Hlt [r [H1 H2]]]. split; [|exact Hlt]. split; [|tauto].
    now exists r.
Qed.

(** The distances that are plotted increase strictly and are positive,
    and they are the distances to the second pixels of the rows of the
    first pixel: a distance is plotted if and only if the table has a
    row for the pair, with the second pixel above the first. *)
Theorem plotted_distances :
  StronglySorted Z.lt
    (Plot.distance (Plot.plot_loop sem linspace_int data pix1))
  /\ forall d,
       In d (Plot.distance (Plot.plot_loop sem linspace_int data pix1))
       <-> exists r, In r data /\ Pixel_1 r = pix1 /\ pix1 < Pixel_2 r
                     /\ d = Pixel_2 r - pix1.
Proof.
  unfold Plot.plot_loop.
  destruct (plot_fold (Plot.pix2 data pix1)
              (Plot.mk_plot_state [] [] [] None)) as [Hd _].
  rewrite Hd. clear Hd. cbn [Plot.distance app]. split.
  - assert (Hs : StronglySorted Z.lt (filter has_rows (Plot.pix2 data pix1))).
    { apply filter_sorted, sorted_NoDup_strict; [apply sort_sorted|].
      apply sort_NoDup, NoDup_filter, unique_from_NoDup. }
    induction Hs as [|p ps Hs IH Hall]; cbn [map]; [constructor|].
    constructor; [exact IH|].
    rewrite Forall_forall in *. intros d Hd'. apply in_map_iff in Hd'.
    destruct Hd' as [q [<- Hq]]. specialize (Hall q Hq). lia.
  - intros d. rewrite in_map_iff. split.
    + intros [p [<- Hp]]. apply filter_In in Hp. destruct Hp as [Hp Hrows].
      apply pix2_In in Hp. destruct Hp as [Hlt _].
      apply has_rows_iff in Hrows. destruct Hrows as (r & Hin & H1 & H2).
      exists r. subst p. auto.
    + intros (r & Hin & H1 & Hlt & ->). exists (Pixel_2 r).
      split; [reflexivity|]. apply filter_In. split.
      * apply pix2_In. split; [exact Hlt|]. now exists r.
      * apply has_rows_iff. now exists r.
Qed.


(** The ticks of the x axis are assigned inside the loop only, in the
    passes that append a distance.  After the loop [xticks] is bound if
    and only if the table has a row of the first pixel with a second
    pixel above it; it then holds the ticks from the first to the last
    distance, one for every ten distances.  With no such row the name is
    still unbound where [ax1.set_xticks(xticks)] reads it. *)
Theorem xticks_are_bound_by_the_rows :
  Plot.xticks (Plot.plot_loop sem linspace_int data pix1)
  = match Plot.distance (Plot.plot_loop sem linspace_int data pix1) with
    | [] => None
    | first_distance :: _ =>
        Some (linspace_int first_distance
                (List.last
                   (Plot.distance (Plot.plot_loop sem linspace_int data pix1))
                   0)
                (List.length
                   (Plot.distance (Plot.plot_loop sem linspace_int data pix1))
                 / 10))
    end
  /\ (Plot.xticks (Plot.plot_loop sem linspace_int data pix1) = None
      <-> ~ exists r, In r data /\ Pixel_1 r = pix1 /\ pix1 < Pixel_2 r).
Proof.
  unfold Plot.plot_loop. split.
  - apply plot_ticks. reflexivity.
  - destruct (plot_fold (Plot.pix2 data pix1)
                (Plot.mk_plot_state [] [] [] None)) as (_ & _ & _ & _ & H5).
    cbn [Plot.xticks] in H5. rewrite H5. split.
    + intros [_ Hnil] (r & Hin & H1 & Hlt).
      assert (Hp : In (Pixel_2 r) (filter has_rows (Plot.pix2 data pix1))).
      { apply filter_In. split.
        - apply pix2_In. split; [exact Hlt|]. now exists r.
        - apply has_rows_iff. now exists r. }
      rewrite Hnil in Hp. destruct Hp.
    + intros Hno. split; [reflexivity|].
      destruct (filter has_rows (Plot.pix2 data pix1)) as [|p ps] eqn:Hf;
        [reflexivity|].
      exfalso. apply Hno. assert (Hp : In p (p :: ps)) by now left.
      rewrite <- Hf in Hp. apply filter_In in Hp. destruct Hp as [Hp Hrows].
      apply pix2_In in Hp. destruct Hp as [Hlt _].
      apply has_rows_iff in Hrows. destruct Hrows as (r & Hin & H1 & H2).
      exists r. subst p. auto.
Qed.

End PlotFacts.

(** ** The extended background spread *)


(** ** The further properties at sample inputs *)

Lemma a_failed_run_writes_nothing_witness :
  cross_talk_data (snd (Sample.run "9999b" (Sample.world_of ["a.dat"])))
  = cross_talk_data (Sample.world_of ["a.dat"])
  /\ dat_files (snd (Sample.run "9999b" (Sample.world_of ["a.dat"])))
     = dat_files (Sample.world_of ["a.dat"]).
Proof.
  unfold Sample.run.
  apply a_failed_run_writes_nothing with (e := SystemExit).
  vm_compute. reflexivity.
Defined.

Lemma a_completed_run_logs_witness :
  exists first_file last_file,
    Np.first (dat_files (Sample.world_of ["a.dat"; "silent.dat"]))
    = Ok first_file
    /\ last_item (dat_files (Sample.world_of ["a.dat"; "silent.dat"]))
       = Ok last_file
    /\ events (snd (Sample.run "2212b"
                      (Sample.world_of ["a.dat"; "silent.dat"])))
       = (events (Sample.world_of ["a.dat"; "silent.dat"])
          ++ [Chdir "data"; Glob "*.dat*"]
          ++ map Unpack (dat_files (Sample.world_of ["a.dat"; "silent.dat"]))
          ++ match cross_talk_data (Sample.world_of ["a.dat"; "silent.dat"])
             with
             | Some _ => []
             | None => [Makedirs "cross_talk_data"]
             end
          ++ [Chdir "cross_talk_data";
              Glob ("*" ++ csv_name first_file last_file ++ "*");
              ToCsv (csv_name first_file last_file)])%list.
Proof.
  unfold Sample.run. apply a_completed_run_logs. vm_compute. reflexivity.
Defined.

Lemma a_completed_run_keeps_other_tables_witness :
  artifact "CT_data_x.dat-y.dat.csv"
    (snd (Sample.run "2212b"
            (mk_world ["a.dat"] (Some [("CT_data_x.dat-y.dat.csv", [])]) [])))
  = artifact "CT_data_x.dat-y.dat.csv"
      (mk_world ["a.dat"] (Some [("CT_data_x.dat-y.dat.csv", [])]) []).
Proof.
  destruct (a_completed_run_keeps_other_tables Sample.unpack_binary_data
              DifferenceEngine.calculate_differences_2212 "data" [0; 1]
              (PyStr "NL11") (PyStr "#33") (PyStr "2212b") 2 10000 true true
              (mk_world ["a.dat"] (Some [("CT_data_x.dat-y.dat.csv", [])]) [])
              "CT_data_x.dat-y.dat.csv")
    as (first_file & last_file & Hfirst & Hlast & Hkept).
  - vm_compute. reflexivity.
  - apply Hkept. vm_compute in Hfirst, Hlast.
    injection Hfirst as <-. injection Hlast as <-. discriminate 1.
Defined.

Lemma collect_in_an_empty_folder_witness :
  Sample.run "2212b" (Sample.world_of [])
  = (Raise IndexError,
     after [Chdir "data"; Glob "*.dat*"] (Sample.world_of [])).
Proof.
  unfold Sample.run. apply collect_in_an_empty_folder; reflexivity.
Defined.

Lemma a_pixel_out_of_range_fails_the_file_witness :
  file_rows DifferenceEngine.calculate_differences_2212 "c.dat" Sample.b2212
    Sample.coincident 10000 (0 :: [1; 300])
  = Raise IndexError.
Proof.
  apply a_pixel_out_of_range_fails_the_file with (p := 300).
  - apply grid_check_sound. vm_compute. reflexivity.
  - right. split; [cbn; tauto|lia].
  - lia.
Defined.

Lemma nothing_above_the_first_pixel_gives_no_rows_witness :
  file_rows DifferenceEngine.calculate_differences_2212 "c.dat" Sample.b2212
    Sample.coincident 10000 (5 :: [3; 5; -1])
  = Ok [].
Proof.
  eapply nothing_above_the_first_pixel_gives_no_rows.
  - vm_compute. reflexivity.
  - repeat constructor; lia.
Defined.

Lemma a_well_formed_run_completes_witness :
  exists table,
    fst (collect_cross_talk Sample.unpack_binary_data
           DifferenceEngine.calculate_differences_2212 "data" (0 :: [1; 5])
           (PyStr "NL11") (PyStr "#33") (PyStr "2212s") 2 10000 true true
           (Sample.world_of ["a.dat"; "two_cycles.dat"])) = Ok tt
    /\ artifact (csv_name "a.dat" (List.last ["two_cycles.dat"] "a.dat"))
         (snd (collect_cross_talk Sample.unpack_binary_data
                 DifferenceEngine.calculate_differences_2212 "data"
                 (0 :: [1; 5]) (PyStr "NL11") (PyStr "#33") (PyStr "2212s")
                 2 10000 true true
                 (Sample.world_of ["a.dat"; "two_cycles.dat"])))
       = Some table
    /\ (List.length table
        <= List.length (dat_files (Sample.world_of ["a.dat"; "two_cycles.dat"]))
           * List.length [1; 5])%nat
    /\ Forall (fun r =>
                 In (File r)
                   (dat_files (Sample.world_of ["a.dat"; "two_cycles.dat"]))
                 /\ Pixel_1 r = 0 /\ In (Pixel_2 r) [1; 5]
                 /\ 0 < Pixel_2 r) table.
Proof.
  eapply a_well_formed_run_completes.
  - reflexivity.
  - reflexivity.
  - reflexivity.
  - repeat constructor; lia.
  - reflexivity.
  - repeat constructor.
Defined.

Lemma every_valid_record_is_counted_once_witness :
  exists counts,
    count_valid Sample.b2212 Sample.coincident (Np.arange 256) = Ok counts
    /\ List.length counts = 256%nat
    /\ list_sum counts = valid_records Sample.coincident.
Proof.
  apply every_valid_record_is_counted_once with (firmware_version := PyStr "2212b");
    reflexivity.
Defined.

Lemma dark_count_rate_of_an_empty_folder_witness :
  Sample.run_dcr "2212b" (Sample.world_of [])
  = (Ok NaN,
     after [Chdir "data"; Glob "*.dat*"; ReadMask] (Sample.world_of []))
  /\ calculate_dark_count_rate Sample.unpack_binary_data
       (fun _ _ => [300%nat]) "data" (PyStr "NL11") (PyStr "#33")
       (PyStr "2212b") 2 (Sample.world_of [])
     = (Raise IndexError,
        after [Chdir "data"; Glob "*.dat*"; ReadMask] (Sample.world_of [])).
Proof.
  split.
  - unfold Sample.run_dcr.
    apply dark_count_rate_of_an_empty_folder; reflexivity.
  - apply (dark_count_rate_of_an_empty_folder Sample.unpack_binary_data
             (fun _ _ => [300%nat])); reflexivity.
Defined.

(** The pixels 0 and 1 fire once each in the first file, pixel 1 twice
    in the second; with pixel 1 masked, one timestamp is left. *)
Lemma dark_count_rate_completes_witness :
  calculate_dark_count_rate Sample.unpack_binary_data
    (fun _ _ => [1%nat; 200%nat]) "data" (PyStr "NL11") (PyStr "#33")
    (PyStr "2212b") 2 (Sample.world_of ["a.dat"; "silent.dat"])
  = (Ok (Dcr (Qmake
                (Z.of_nat
                   (unmasked_total Sample.b2212
                      (fun file =>
                         Sample.unpack_binary_data file (PyStr "NL11")
                           (PyStr "#33") (PyStr "2212b") 2 false None)
                      (dat_files (Sample.world_of ["a.dat"; "silent.dat"]))
                      [1%nat; 200%nat]))
                (Pos.of_nat
                   (256 * List.length
                            (dat_files
                               (Sample.world_of ["a.dat"; "silent.dat"])))))),
     after ([Chdir "data"; Glob "*.dat*"]
            ++ map Unpack
                 (dat_files (Sample.world_of ["a.dat"; "silent.dat"]))
            ++ [ReadMask])
       (Sample.world_of ["a.dat"; "silent.dat"]))
  /\ unmasked_total Sample.b2212
       (fun file =>
          Sample.unpack_binary_data file (PyStr "NL11") (PyStr "#33")
            (PyStr "2212b") 2 false None)
       ["a.dat"; "silent.dat"] [1%nat; 200%nat] = 1%nat
  /\ unmasked_total Sample.b2212
       (fun file =>
          Sample.unpack_binary_data file (PyStr "NL11") (PyStr "#33")
            (PyStr "2212b") 2 false None)
       ["a.dat"; "silent.dat"] [] = 4%nat.
Proof.
  split; [|split; vm_compute; reflexivity].
  apply (dark_count_rate_completes Sample.unpack_binary_data
           (fun _ _ => [1%nat; 200%nat]))
    with (first_file := "a.dat") (more_files := ["silent.dat"]).
  - reflexivity.
  - reflexivity.
  - reflexivity.
  - reflexivity.
  - constructor; [cbv; lia|]. constructor; [cbv; lia|]. constructor.
  - reflexivity.
  - repeat constructor.
Defined.

Lemma dark_count_rate_ignores_the_order_of_the_files_witness :
  fst (Sample.run_dcr "2212s" (Sample.world_of ["a.dat"; "silent.dat"]))
  = fst (Sample.run_dcr "2212s" (Sample.world_of ["silent.dat"; "a.dat"])).
Proof.
  unfold Sample.run_dcr.
  eapply dark_count_rate_ignores_the_order_of_the_files.
  - reflexivity.
  - reflexivity.
  - reflexivity.
  - reflexivity.
  - repeat constructor.
  - apply perm_swap.
Defined.

Lemma only_the_dark_count_rate_checks_the_type_of_the_tag_witness :
  calculate_dark_count_rate Sample.unpack_binary_data Sample.apply_mask "data"
    (PyStr "NL11") (PyStr "#33") PyNone 2 (Sample.world_of ["a.dat"])
  = (Raise TypeError, Sample.world_of ["a.dat"])
  /\ collect_cross_talk Sample.unpack_binary_data
       DifferenceEngine.calculate_differences_2212 "data" [0; 1]
       (PyStr "NL11") (PyStr "#33") PyNone 2 10000 true true
       (Sample.world_of ["a.dat"])
     = (Raise SystemExit,
        after [Chdir "data"; Glob "*.dat*"] (Sample.world_of ["a.dat"])).
Proof.
  destruct (only_the_dark_count_rate_checks_the_type_of_the_tag
              Sample.unpack_binary_data
              DifferenceEngine.calculate_differences_2212 Sample.apply_mask
              "data" [0; 1] (PyStr "NL11") (PyStr "#33") PyNone 2 10000
              true true (Sample.world_of ["a.dat"]) "a.dat" [] eq_refl)
    as [Hdcr Hcollect].
  split; [exact Hdcr|]. apply Hcollect; reflexivity.
Defined.
